(** * Go-Fiber-auth: registration and login handlers of [main.go]

    A shallow embedding of the two HTTP handlers [registerUser] and
    [loginUser], of the [User] model they persist, and of the collaborators
    they call: the body decoder of the web framework, the password hash and
    the record store.

    The handlers are translated statement by statement from [main.go].
    The collaborators are imported packages whose code is not part of the
    repository; the decoder and the password hash are interfaces (type
    classes) over which the handlers are generic, the record store is a
    table of [User] rows with the two constraints that the struct tags of
    [User] declare. The start-up functions [init], [initDatabase] and
    [main] are embedded over an interface of their own. *)

From Stdlib Require Import String Ascii List ZArith NArith Bool Lia.
Import ListNotations.

Local Open Scope string_scope.
Local Open Scope Z_scope.
Local Open Scope list_scope.

(* ================================================================= *)
(** ** Go values *)

(** A Go call that returns [(value, error)]: either the value or the error. *)
Inductive Result (E A : Type) : Type :=
| Ok (a : A)
| Err (e : E).

Arguments Ok {E A} a.
Arguments Err {E A} e.

Definition is_ok {E A} (r : Result E A) : bool :=
  match r with Ok _ => true | Err _ => false end.

(* ================================================================= *)
(** ** The [User] model (main.go, lines 17-22) *)

(** [ID] is the primary key, [Email] carries the tag [gorm:"unique"]. *)
Record User : Type := mkUser {
  ID : N;
  Name : string;
  Email : string;
  Password : string
}.

(** [user.Password = string(hashedPassword)] (line 96). *)
Definition set_Password (u : User) (p : string) : User :=
  {| ID := ID u; Name := Name u; Email := Email u; Password := p |}.

(** The anonymous struct that [loginUser] decodes into (lines 113-116). *)
Record LoginInput : Type := mkLoginInput {
  input_Email : string;
  input_Password : string
}.

(* ================================================================= *)
(** ** The web framework: status codes, bodies, responses *)

Module fiber.

Definition StatusOK : Z := 200.
Definition StatusBadRequest : Z := 400.
Definition StatusUnauthorized : Z := 401.
Definition StatusConflict : Z := 409.
Definition StatusInternalServerError : Z := 500.

(** [fiber.Map]: the handlers only build literals with one string entry. *)
Definition Map : Type := list (string * string).

(** What a handler leaves in the context: the status and the JSON body. *)
Record Response : Type := mkResponse {
  status : Z;
  body : Map
}.

(** A context on which nothing was set answers 200. *)
Definition fresh : Response := {| status := StatusOK; body := [] |}.

(** [c.Status(code)] *)
Definition Status (c : Response) (code : Z) : Response :=
  {| status := code; body := body c |}.

(** [c.JSON(m)] *)
Definition JSON (c : Response) (m : Map) : Response :=
  {| status := status c; body := m |}.

(** The error of a body that cannot be decoded. *)
Inductive Error : Type := ErrUnprocessableEntity.

(** [c.BodyParser(out)]: decoding is directed by the type of [out]. *)
Class Decodes (Ctx T : Type) : Type :=
  BodyParser : Ctx -> Result Error T.

End fiber.

Import fiber.

(* ================================================================= *)
(** ** The record store *)

Module gorm.

(** Modelled from the spec: the Credential Store. [main.go] reaches it
    through [db.Create] and [db.Where("email = ?", _).First], provided
    by the imported packages gorm.io/gorm and gorm.io/driver/sqlite,
    which are not part of the repository. The table holds the migrated
    [User] rows in insertion order; [ID] is the primary key and [Email]
    is unique, as the struct tags declare. *)
Definition DB : Type := list User.

Inductive Error : Type :=
| ErrRecordNotFound
| ErrUniqueConstraint (column : string).

Definition has_ID (id : N) (t : DB) : bool :=
  existsb (fun r => N.eqb (ID r) id) t.

Definition has_Email (email : string) (t : DB) : bool :=
  existsb (fun r => String.eqb (Email r) email) t.

(** Modelled from the spec: the id the store assigns on creation, to a
    row inserted without one: above every key in use. *)
Definition next_ID (t : DB) : N :=
  N.succ (fold_right (fun r m => N.max (ID r) m) 0%N t).

(** Modelled from the spec: [create], called as [db.Create(user)]. A
    zero [ID] asks for a generated key; the insert fails when the key or
    the email is already in the table, and otherwise appends the row. *)
Definition Create (u : User) (t : DB) : Result Error (User * DB) :=
  let id := if N.eqb (ID u) 0 then next_ID t else ID u in
  if has_ID id t then Err (ErrUniqueConstraint "users.id")
  else if has_Email (Email u) t then Err (ErrUniqueConstraint "users.email")
  else
    let row := {| ID := id; Name := Name u; Email := Email u;
                  Password := Password u |} in
    Ok (row, t ++ [row]).

(** Modelled from the spec: the rows of [findByIdentifier], selected by
    [db.Where("email = ?", email)]: equality of the whole text. *)
Definition Where_email (email : string) (t : DB) : list User :=
  filter (fun r => String.eqb (Email r) email) t.

(** The row with the least primary key. *)
Fixpoint least_ID (rows : list User) : option User :=
  match rows with
  | [] => None
  | r :: rest =>
      match least_ID rest with
      | None => Some r
      | Some m => if N.leb (ID r) (ID m) then Some r else Some m
      end
  end.

(** Modelled from the spec: the answer of [findByIdentifier], taken by
    [.First(user)]: the first row in primary-key order, or
    [ErrRecordNotFound]. *)
Definition First (rows : list User) : Result Error User :=
  match least_ID rows with
  | Some r => Ok r
  | None => Err ErrRecordNotFound
  end.

End gorm.

(* ================================================================= *)
(** ** The password hash *)

(** [take n s] and [drop n s]: the Go slices [s[:n]] and [s[n:]]. *)
Fixpoint take (n : nat) (s : string) : string :=
  match n, s with
  | S n', String c s' => String c (take n' s')
  | _, _ => EmptyString
  end.

Fixpoint drop (n : nat) (s : string) : string :=
  match n, s with
  | S n', String _ s' => drop n' s'
  | _, _ => s
  end.

Module bcrypt.

Definition MinCost : Z := 4.
Definition MaxCost : Z := 31.
Definition DefaultCost : Z := 10.

Inductive Error : Type :=
| ErrMismatchedHashAndPassword
| ErrHashTooShort
| InvalidHashPrefixError (c : ascii)
| HashVersionTooNewError (c : ascii)
| InvalidCostError (cost : Z)
| ErrCostSyntax
| ErrEntropy.

(** The two calls [main.go] makes into the imported package
    golang.org/x/crypto/bcrypt, as an interface: the handlers are generic
    over it. [GenerateFromPassword] is given, as its first argument, the
    salt that the call reads from the random source;
    [CompareHashAndPassword] answers [None] for Go's [nil]. *)
Class Hasher : Type := {
  GenerateFromPassword : string -> string -> Z -> Result Error string;
  CompareHashAndPassword : string -> string -> option Error
}.

(** *** A model of the hash format

    Modelled from the spec: a salted, cost-tunable hash whose output
    embeds its salt, so that verification needs the hash and the password
    only. The layout of the output is the one of the imported package. *)

Definition encodedSaltSize : nat := 22.
Definition encodedHashSize : nat := 31.
Definition minHashSize : nat := 59.

Record hashed : Type := mkHashed {
  hash : string;
  salt : string;
  cost : Z;
  major : ascii;
  minor : ascii
}.

Definition digit (d : Z) : ascii := ascii_of_nat (48 + Z.to_nat d).

Definition digit_value (c : ascii) : option Z :=
  let n := nat_of_ascii c in
  if (Nat.leb 48 n && Nat.leb n 57)%bool
  then Some (Z.of_nat n - 48) else None.

(** The cost as two decimal digits. *)
Definition cost_digits (c : Z) : string :=
  String (digit (c / 10)) (String (digit (c mod 10)) EmptyString).

Definition checkCost (c : Z) : option Error :=
  if (c <? MinCost) || (c >? MaxCost) then Some (InvalidCostError c)
  else None.

Section Model.

(** The slow keyed derivation: password, cost and salt to digest. *)
Variable core : string -> Z -> string -> string.

(** Modelled from the spec: the serialised hash. The salt and the cost
    travel inside the output, in front of the digest:
    [$2a$], the cost on two digits, [$], the salt, the digest. *)
Definition Hash (p : hashed) : string :=
  String "$" (String (major p)
    ((if Ascii.eqb (minor p) zero then EmptyString
      else String (minor p) EmptyString)
     ++ String "$" (cost_digits (cost p) ++ String "$"
          (salt p ++ hash p))))%string.

(** Modelled from the spec: deriving a fresh hash from a password,
    under the salt [rnd] just read from the random source. A cost
    below [MinCost] is replaced by [DefaultCost]; a read that did not
    deliver a whole salt is an error. *)
Definition newFromPassword (rnd password : string) (c : Z)
  : Result Error hashed :=
  let c := if c <? MinCost then DefaultCost else c in
  match checkCost c with
  | Some e => Err e
  | None =>
      if Nat.eqb (String.length rnd) encodedSaltSize then
        Ok {| hash := core password c rnd; salt := rnd; cost := c;
              major := "2"; minor := "a" |}
      else Err ErrEntropy
  end.

(** Modelled from the spec: the password-hashing function that
    [registerUser] calls as [bcrypt.GenerateFromPassword] (imported
    package golang.org/x/crypto/bcrypt, not part of the repository). *)
Definition model_GenerateFromPassword (rnd password : string) (c : Z)
  : Result Error string :=
  match newFromPassword rnd password c with
  | Ok p => Ok (Hash p)
  | Err e => Err e
  end.

(** Modelled from the spec: reading a stored hash back. A malformed
    hash is an error of its own, distinct from a mismatch. *)
Definition newFromHash (h : string) : Result Error hashed :=
  if Nat.ltb (String.length h) minHashSize then Err ErrHashTooShort
  else
    match h with
    | String c0 (String c1 (String c2 rest)) =>
        if negb (Ascii.eqb c0 "$") then Err (InvalidHashPrefixError c0)
        else if Nat.ltb (nat_of_ascii "2") (nat_of_ascii c1)
        then Err (HashVersionTooNewError c1)
        else
          let mn := if Ascii.eqb c2 "$" then zero else c2 in
          let rest := if Ascii.eqb c2 "$" then rest else drop 1 rest in
          match rest with
          | String d1 (String d0 rest) =>
              match digit_value d1, digit_value d0 with
              | Some v1, Some v0 =>
                  let c := 10 * v1 + v0 in
                  match checkCost c with
                  | Some e => Err e
                  | None =>
                      let rest := drop 1 rest in
                      Ok {| hash := drop encodedSaltSize rest;
                            salt := take encodedSaltSize rest;
                            cost := c; major := c1; minor := mn |}
                  end
              | _, _ => Err ErrCostSyntax
              end
          | _ => Err ErrHashTooShort
          end
    | _ => Err ErrHashTooShort
    end.

(** Modelled from the spec: verification, which
    [loginUser] calls as [bcrypt.CompareHashAndPassword]. The digest is
    derived again under the cost and the salt read from the stored
    hash, and the two serialised hashes are compared. *)
Definition model_CompareHashAndPassword (hashedPassword password : string)
  : option Error :=
  match newFromHash hashedPassword with
  | Err e => Some e
  | Ok p =>
      let otherP := {| hash := core password (cost p) (salt p);
                       salt := salt p; cost := cost p;
                       major := major p; minor := minor p |} in
      if String.eqb (Hash p) (Hash otherP) then None
      else Some ErrMismatchedHashAndPassword
  end.

Definition model : Hasher := {|
  GenerateFromPassword := model_GenerateFromPassword;
  CompareHashAndPassword := model_CompareHashAndPassword
|}.

End Model.

End bcrypt.

(* ================================================================= *)
(** ** The world of a handler *)

(** A call that leaves the handler for the password hash or the store. *)
Inductive Call : Type :=
| CallGenerateFromPassword (password : string) (cost : Z)
| CallCompareHashAndPassword (hashedPassword password : string)
| CallCreate (u : User)
| CallFirst (email : string).

(** The state a handler runs in: the global [db] (line 24), the salts the
    random source will deliver, oldest first, and the record of the calls
    made to the hash and to the store, oldest first. *)
Record World : Type := mkWorld {
  db : gorm.DB;
  entropy : list string;
  calls : list Call
}.

(** Computations over the world. *)
Definition M (A : Type) : Type := World -> A * World.

Definition ret {A} (a : A) : M A := fun w => (a, w).

Definition bind {A B} (m : M A) (k : A -> M B) : M B :=
  fun w => let (a, w') := m w in k a w'.

Notation "x <- m ;; k" := (bind m (fun x => k))
  (at level 61, m at next level, right associativity).

Definition record (c : Call) (w : World) : World :=
  {| db := db w; entropy := entropy w; calls := calls w ++ [c] |}.

Section Handlers.

Context {Ctx : Type}.
Context {hasher : bcrypt.Hasher}.
Context {decodes_User : Decodes Ctx User}.
Context {decodes_LoginInput : Decodes Ctx LoginInput}.

(** [bcrypt.GenerateFromPassword(password, cost)]: one salt is read from
    the random source; a source that delivers nothing is an error. *)
Definition bcrypt_GenerateFromPassword (password : string) (cost : Z)
  : M (Result bcrypt.Error string) :=
  fun w =>
    let w := record (CallGenerateFromPassword password cost) w in
    match entropy w with
    | [] => (Err bcrypt.ErrEntropy, w)
    | rnd :: later =>
        (bcrypt.GenerateFromPassword rnd password cost,
         {| db := db w; entropy := later; calls := calls w |})
    end.

(** [bcrypt.CompareHashAndPassword(hashedPassword, password)] *)
Definition bcrypt_CompareHashAndPassword (hashedPassword password : string)
  : M (option bcrypt.Error) :=
  fun w =>
    (bcrypt.CompareHashAndPassword hashedPassword password,
     record (CallCompareHashAndPassword hashedPassword password) w).

(** [db.Create(user).Error] *)
Definition db_Create (user : User) : M (option gorm.Error) :=
  fun w =>
    let w := record (CallCreate user) w in
    match gorm.Create user (db w) with
    | Ok (_, t) =>
        (None, {| db := t; entropy := entropy w; calls := calls w |})
    | Err e => (Some e, w)
    end.

(** [db.Where("email = ?", email).First(user).Error], with the row that
    was read into [user]. *)
Definition db_Where_email_First (email : string)
  : M (Result gorm.Error User) :=
  fun w =>
    (gorm.First (gorm.Where_email email (db w)), record (CallFirst email) w).

(** [registerUser] (main.go, lines 73-108). *)
Definition registerUser (c : Ctx) : M Response :=
  match BodyParser (T := User) c with
  | Err _ =>
      ret (JSON (Status fresh StatusBadRequest)
             [("error", "Failed to parse request body")])
  | Ok user =>
      if String.eqb (Name user) EmptyString
         || String.eqb (Email user) EmptyString
         || String.eqb (Password user) EmptyString
      then
        ret (JSON (Status fresh StatusBadRequest)
               [("error", "Name, email, and password are required")])
      else
        r <- bcrypt_GenerateFromPassword (Password user) bcrypt.DefaultCost ;;
        match r with
        | Err _ =>
            ret (JSON (Status fresh StatusInternalServerError)
                   [("error", "Failed to hash password")])
        | Ok hashedPassword =>
            let user := set_Password user hashedPassword in
            e <- db_Create user ;;
            match e with
            | Some _ =>
                ret (JSON (Status fresh StatusInternalServerError)
                       [("error", "Failed to save user to database")])
            | None =>
                ret (JSON fresh [("message", "User registered successfully")])
            end
        end
  end.

(** [loginUser] (main.go, lines 111-149). *)
Definition loginUser (c : Ctx) : M Response :=
  match BodyParser (T := LoginInput) c with
  | Err _ =>
      ret (JSON (Status fresh StatusBadRequest)
             [("error", "Failed to parse request body")])
  | Ok input =>
      if String.eqb (input_Email input) EmptyString
         || String.eqb (input_Password input) EmptyString
      then
        ret (JSON (Status fresh StatusBadRequest)
               [("error", "Email and password are required")])
      else
        r <- db_Where_email_First (input_Email input) ;;
        match r with
        | Err _ =>
            ret (JSON (Status fresh StatusUnauthorized)
                   [("error", "Invalid email or password")])
        | Ok user =>
            e <- bcrypt_CompareHashAndPassword
                   (Password user) (input_Password input) ;;
            match e with
            | Some _ =>
                ret (JSON (Status fresh StatusUnauthorized)
                       [("error", "Invalid email or password")])
            | None =>
                ret (JSON fresh [("message", "Login successful")])
            end
        end
  end.

(** The two routes of [main] (lines 61-62). *)
Inductive Request : Type :=
| PostRegister (c : Ctx)
| PostLogin (c : Ctx).

Definition serve (q : Request) : M Response :=
  match q with
  | PostRegister c => registerUser c
  | PostLogin c => loginUser c
  end.

(** The world after a sequence of requests, served one after another. *)
Fixpoint serve_all (qs : list Request) (w : World) : World :=
  match qs with
  | [] => w
  | q :: later => serve_all later (snd (serve q w))
  end.

End Handlers.

(* ================================================================= *)
(** ** The outcomes of the specification *)

(** The result kinds that the specification names, and the status each
    one travels as. *)
Inductive Outcome : Type :=
| Success
| ValidationError
| UnauthorizedError
| ConflictError
| InternalError
| Unclassified.

Definition outcome (r : Response) : Outcome :=
  if status r =? StatusOK then Success
  else if status r =? StatusBadRequest then ValidationError
  else if status r =? StatusUnauthorized then UnauthorizedError
  else if status r =? StatusConflict then ConflictError
  else if status r =? StatusInternalServerError then InternalError
  else Unclassified.

(** The accounts stored under an email, and the invariant of the store:
    no two rows share an email. *)
Definition accounts_of (email : string) (t : gorm.DB) : nat :=
  List.length (gorm.Where_email email t).

Definition unique_emails (t : gorm.DB) : Prop := NoDup (map Email t).

Definition registered (email : string) (t : gorm.DB) : Prop :=
  exists r, In r t /\ Email r = email.

(** Every response the two handlers can send: the literals of [main.go]. *)
Definition register_literals : list Response :=
  [ {| status := 400; body := [("error", "Failed to parse request body")] |};
    {| status := 400;
       body := [("error", "Name, email, and password are required")] |};
    {| status := 500; body := [("error", "Failed to hash password")] |};
    {| status := 500; body := [("error", "Failed to save user to database")] |};
    {| status := 200; body := [("message", "User registered successfully")] |} ].

Definition login_literals : list Response :=
  [ {| status := 400; body := [("error", "Failed to parse request body")] |};
    {| status := 400; body := [("error", "Email and password are required")] |};
    {| status := 401; body := [("error", "Invalid email or password")] |};
    {| status := 200; body := [("message", "Login successful")] |} ].

Definition response_literals : list Response :=
  register_literals ++ login_literals.

(** [occurs p s]: the text [p] occurs somewhere in [s]. *)
Fixpoint occurs (p s : string) : bool :=
  String.prefix p s
  || match s with
     | EmptyString => false
     | String _ s' => occurs p s'
     end.

Definition body_mentions (p : string) (r : Response) : bool :=
  existsb (fun kv => occurs p (fst kv) || occurs p (snd kv)) (body r).

(* ================================================================= *)
(** ** Concrete collaborators, to run the handlers *)

(** Request bodies as the decoder sees them: a flat JSON object of text
    fields, or something that is not one. A field that is absent leaves
    the zero value in the struct, as Go's decoder does. *)
Module wire.

Inductive Body : Type :=
| Garbled
| Object (fields : list (string * string)).

Fixpoint field (k : string) (fs : list (string * string)) : string :=
  match fs with
  | [] => EmptyString
  | (k', v) :: later => if String.eqb k' k then v else field k later
  end.

#[export] Instance decodes_User : Decodes Body User := fun b =>
  match b with
  | Garbled => Err ErrUnprocessableEntity
  | Object fs =>
      Ok {| ID := 0; Name := field "name" fs; Email := field "email" fs;
            Password := field "password" fs |}
  end.

#[export] Instance decodes_LoginInput : Decodes Body LoginInput := fun b =>
  match b with
  | Garbled => Err ErrUnprocessableEntity
  | Object fs =>
      Ok {| input_Email := field "email" fs;
            input_Password := field "password" fs |}
  end.

End wire.

(** A small keyed mixing function standing in for the slow derivation, so
    that the model of the hash can be run. *)
Module standin.

Definition alphabet : string :=
  "./ABCDEFGHIJKLMNOPQRSTUVWXYZabcdefghijklmnopqrstuvwxyz0123456789".

Definition letter (n : N) : ascii :=
  match String.get (N.to_nat n) alphabet with
  | Some c => c
  | None => "."%char
  end.

Fixpoint mix (s : string) (acc : N) : N :=
  match s with
  | EmptyString => acc
  | String c s' => mix s' ((acc * 257 + N_of_ascii c + 1) mod 2 ^ 186)%N
  end.

Fixpoint render (n : nat) (v : N) : string :=
  match n with
  | O => EmptyString
  | S n' => String (letter (v mod 64)) (render n' (v / 64)%N)
  end.

Definition core (password : string) (cost : Z) (salt : string) : string :=
  render bcrypt.encodedHashSize (mix password (mix salt (Z.to_N cost))).

#[export] Instance hasher : bcrypt.Hasher := bcrypt.model core.

End standin.

(** The inputs of the concrete scenario of the specification. *)
Module scenario.

Import wire standin.

(** The handlers over the concrete collaborators. *)
Definition register : Body -> M Response := registerUser.
Definition login : Body -> M Response := loginUser.
Definition requests : Type := Request (Ctx := Body).
Definition serve_requests : list requests -> World -> World := serve_all.

Definition salt1 : string := "abcdefghijklmnopqrstuv".
Definition salt2 : string := "ABCDEFGHIJKLMNOPQRSTUV".

(** An empty table, and a random source with two salts to deliver. *)
Definition start : World :=
  {| db := []; entropy := [salt1; salt2]; calls := [] |}.

Definition register_ann : Body :=
  Object [("name", "Ann"); ("email", "ann@x.com"); ("password", "s3cret")].

Definition login_ann : Body :=
  Object [("email", "ann@x.com"); ("password", "s3cret")].

Definition login_ann_wrong : Body :=
  Object [("email", "ann@x.com"); ("password", "wrong")].

Definition login_nobody : Body :=
  Object [("email", "nobody@x.com"); ("password", "s3cret")].

(** Requests with a required field left out, and one whose password is
    a single blank. *)
Definition register_no_email : Body :=
  Object [("name", "Ann"); ("password", "s3cret")].

Definition login_no_password : Body :=
  Object [("email", "ann@x.com")].

Definition register_blank_password : Body :=
  Object [("name", "Ann"); ("email", "ann@x.com"); ("password", " ")].

(** A table whose only row holds a text that is no hash. *)
Definition damaged : World :=
  {| db := [ {| ID := 1; Name := "Ann"; Email := "ann@x.com";
                Password := "corrupted" |} ];
     entropy := [salt1];
     calls := [] |}.

(** A table in which Ann is registered, with a well-formed hash. *)
Definition with_ann : World :=
  {| db := [ {| ID := 1; Name := "Ann"; Email := "ann@x.com";
                Password := bcrypt.Hash
                  {| bcrypt.hash := standin.core "s3cret" 10 salt2;
                     bcrypt.salt := salt2; bcrypt.cost := 10;
                     bcrypt.major := "2"; bcrypt.minor := "a" |} |} ];
     entropy := [salt1];
     calls := [] |}.

End scenario.

(* ================================================================= *)
(** ** Histories of requests *)

Section Histories.

Context {Ctx : Type}.
Context {hasher : bcrypt.Hasher}.
Context {decodes_User : Decodes Ctx User}.
Context {decodes_LoginInput : Decodes Ctx LoginInput}.

(** The answers to a sequence of requests, served one after another. *)
Fixpoint answers (qs : list Request) (w : World) : list Response :=
  match qs with
  | [] => []
  | q :: later => fst (serve q w) :: answers later (snd (serve q w))
  end.

End Histories.

(* ================================================================= *)
(** ** Start-up: [init], [initDatabase] and [main] *)

Module os.

(** The environment of the process: names with their values; the first
    binding of a name is the one in force. *)
Definition Environ : Type := list (string * string).

(** [os.Getenv(key)]: the value of the variable, or the empty string when
    the variable is not set. *)
Fixpoint Getenv (key : string) (env : Environ) : string :=
  match env with
  | [] => EmptyString
  | (k, v) :: later => if String.eqb k key then v else Getenv key later
  end.

End os.

Module startup.

(** What start-up asks of its surroundings, as an interface: loading the
    [.env] file into the environment ([godotenv.Load]), opening the data
    source ([gorm.Open(sqlite.Open(dsn), _)]) and migrating the schema of
    [User] ([db.AutoMigrate]). An error is carried as the text that [%v]
    prints. *)
Class Host (Conn : Type) : Type := {
  godotenv_Load : os.Environ -> Result string os.Environ;
  gorm_Open : string -> Result string Conn;
  AutoMigrate : Conn -> option string
}.

(** How a function of the start-up ends: it returns, or [log.Fatalf] has
    printed its line and left the process. *)
Inductive Exit (A : Type) : Type :=
| Returned (a : A)
| Fatal (printed : list string).

Arguments Returned {A} a.
Arguments Fatal {A} printed.

(** The handlers that [main] mounts. *)
Inductive Handler : Type :=
| Handler_registerUser
| Handler_loginUser.

Record Route : Type := mkRoute {
  method : string;
  path : string;
  handler : Handler
}.

(** What [main] hands to the framework: the middleware in use, the routes
    and the address given to [app.Listen]. *)
Record Launch : Type := mkLaunch {
  middleware : list string;
  routes : list Route;
  address : string
}.

Section Process.

Context {Conn : Type}.
Context {host : Host Conn}.

(** The process while it starts: its environment, the lines logged so
    far, oldest first, and the global [db] (line 24), unset at first. *)
Record Process : Type := mkProcess {
  environ : os.Environ;
  printed : list string;
  db_handle : option Conn
}.

(** [initDatabase] (main.go, lines 37-52). *)
Definition initDatabase (p : Process) : Exit Process :=
  let dsn := os.Getenv "DATABASE_DSN" (environ p) in
  let dsn := if String.eqb dsn EmptyString then "users.db" else dsn in
  match gorm_Open dsn with
  | Err err =>
      Fatal (printed p ++ [("Failed to connect to database: " ++ err)%string])
  | Ok conn =>
      match AutoMigrate conn with
      | Some err =>
          Fatal (printed p
                 ++ [("Failed to migrate database schema: " ++ err)%string])
      | None =>
          Returned {| environ := environ p; printed := printed p;
                      db_handle := Some conn |}
      end
  end.

(** [init] (main.go, lines 26-34). *)
Definition init (p : Process) : Exit Process :=
  let p :=
    match godotenv_Load (environ p) with
    | Err _ =>
        {| environ := environ p;
           printed := printed p ++ ["No .env file found"];
           db_handle := db_handle p |}
    | Ok env =>
        {| environ := env; printed := printed p; db_handle := db_handle p |}
    end in
  initDatabase p.

(** [main] (main.go, lines 54-70), up to the call of [app.Listen]. *)
Definition main (p : Process) : Launch :=
  let port := os.Getenv "PORT" (environ p) in
  let port := if String.eqb port EmptyString then "3000" else port in
  {| middleware := ["logger"];
     routes := [ {| method := "POST"; path := "/register";
                    handler := Handler_registerUser |};
                 {| method := "POST"; path := "/login";
                    handler := Handler_loginUser |} ];
     address := (":" ++ port)%string |}.

End Process.

End startup.

(** A host to run the start-up on: it has no [.env] file, opens no data
    source but [users.db], and migrates without error. A connection is
    named by the data source it was opened on. *)
Module machine.

#[export] Instance host : startup.Host string := {|
  startup.godotenv_Load := fun _ => Err "open .env: no such file or directory";
  startup.gorm_Open := fun dsn =>
    if String.eqb dsn "users.db" then Ok dsn
    else Err "unable to open database file";
  startup.AutoMigrate := fun _ => None
|}.

(** A process in which [PORT] is set to the empty string and
    [DATABASE_DSN] is not set. *)
Definition bare : startup.Process (Conn := string) :=
  {| startup.environ := [("PORT", EmptyString)];
     startup.printed := [];
     startup.db_handle := None |}.

Definition init : startup.Process -> startup.Exit startup.Process :=
  startup.init (host := host).

End machine.

(** Further inputs to run the handlers on. *)
Module cases.

Import wire standin.

(** Ann is registered and the random source has nothing to deliver. *)
Definition exhausted : World :=
  {| db := db scenario.with_ann; entropy := []; calls := [] |}.

Definition register_bob : Body :=
  Object [("name", "Bob"); ("email", "bob@x.com"); ("password", "hunter2")].

Definition login_bob : Body :=
  Object [("email", "bob@x.com"); ("password", "hunter2")].

Definition history : list scenario.requests :=
  [PostRegister register_bob; PostLogin login_bob;
   PostRegister scenario.register_ann; PostLogin scenario.login_ann].

Definition answers : list scenario.requests -> World -> list Response :=
  answers.

End cases.

(* ================================================================= *)
(** * Properties *)

(** ** Strings *)

Lemma take_app_length (s t : string) :
  take (String.length s) (s ++ t)%string = s.
Proof.
  induction s as [|c s IH]; simpl.
  - destruct t; reflexivity.
  - now rewrite IH.
Qed.

Lemma drop_app_length (s t : string) :
  drop (String.length s) (s ++ t)%string = t.
Proof.
  induction s as [|c s IH]; simpl; [reflexivity | exact IH].
Qed.

Lemma take_drop (n : nat) (s : string) : (take n s ++ drop n s)%string = s.
Proof.
  revert s; induction n as [|n IH]; intros [|c s]; simpl; try reflexivity.
  now rewrite IH.
Qed.

Lemma length_append (s t : string) :
  String.length (s ++ t)%string = (String.length s + String.length t)%nat.
Proof.
  induction s as [|c s IH]; simpl; [reflexivity | now rewrite IH].
Qed.

Lemma append_inj_r (s t u : string) : (s ++ t = s ++ u)%string -> t = u.
Proof.
  induction s as [|c s IH]; simpl; intros E; [exact E |].
  injection E as E. now apply IH.
Qed.

(** ** The store *)

Module store_facts.

Import gorm.

Lemma has_Email_registered (email : string) (t : DB) :
  has_Email email t = true <-> registered email t.
Proof.
  unfold has_Email, registered. rewrite existsb_exists.
  split; intros [r [Hin He]]; exists r; split; trivial.
  - now apply String.eqb_eq.
  - now apply String.eqb_eq.
Qed.

Lemma has_Email_absent (email : string) (t : DB) :
  has_Email email t = false <-> ~ registered email t.
Proof.
  rewrite <- has_Email_registered. destruct (has_Email email t); split;
    congruence.
Qed.

Lemma Where_email_absent (email : string) (t : DB) :
  has_Email email t = false -> Where_email email t = [].
Proof.
  unfold has_Email, Where_email. induction t as [|r t IH]; simpl; trivial.
  intros H. apply orb_false_iff in H as [Hr Ht].
  rewrite Hr. now apply IH.
Qed.

Lemma Where_email_registered (email : string) (t : DB) :
  registered email t -> exists r rows, Where_email email t = r :: rows.
Proof.
  intros [r [Hin He]].
  assert (Hf : In r (Where_email email t)).
  { apply filter_In. split; trivial. now apply String.eqb_eq. }
  destruct (Where_email email t) as [|r' rows]; [destruct Hf | eauto].
Qed.

Lemma Where_email_sound (email : string) (t : DB) (r : User) :
  In r (Where_email email t) -> In r t /\ Email r = email.
Proof.
  unfold Where_email. rewrite filter_In. intros [Hin He].
  split; trivial. now apply String.eqb_eq.
Qed.

Lemma least_ID_In (rows : list User) (r : User) :
  least_ID rows = Some r -> In r rows.
Proof.
  revert r; induction rows as [|x rows IH]; simpl; intros r; [discriminate |].
  destruct (least_ID rows) as [m|].
  - destruct (N.leb (ID x) (ID m)); intros E; injection E as <-; auto.
  - intros E; injection E as <-; auto.
Qed.

Lemma least_ID_nonempty (x : User) (rows : list User) :
  exists r, least_ID (x :: rows) = Some r.
Proof.
  simpl. destruct (least_ID rows) as [m|]; [|eauto].
  destruct (N.leb (ID x) (ID m)); eauto.
Qed.

(** A lookup finds a row exactly when the email is registered, and the
    row found is a stored row with that email. *)
Lemma First_found (email : string) (t : DB) (r : User) :
  First (Where_email email t) = Ok r -> In r t /\ Email r = email.
Proof.
  unfold First. destruct (least_ID _) as [m|] eqn:E; [|discriminate].
  intros H; injection H as <-.
  now apply Where_email_sound, least_ID_In.
Qed.

Lemma First_registered (email : string) (t : DB) :
  registered email t -> exists r, First (Where_email email t) = Ok r.
Proof.
  intros H. destruct (Where_email_registered _ _ H) as [x [rows E]].
  unfold First. rewrite E.
  destruct (least_ID_nonempty x rows) as [r ->]. eauto.
Qed.

Lemma First_absent (email : string) (t : DB) :
  ~ registered email t ->
  First (Where_email email t) = Err ErrRecordNotFound.
Proof.
  intros H. apply has_Email_absent in H.
  now rewrite (Where_email_absent _ _ H).
Qed.

Lemma Create_inv (u row : User) (t t' : DB) :
  Create u t = Ok (row, t') ->
  has_Email (Email u) t = false /\ t' = t ++ [row] /\
  Name row = Name u /\ Email row = Email u /\ Password row = Password u.
Proof.
  unfold Create.
  destruct (has_ID _ t); [discriminate |].
  destruct (has_Email (Email u) t); [discriminate |].
  intros E; injection E as <- <-. simpl. auto.
Qed.


(** The row just created is the one a lookup of its email returns. *)
Lemma First_after_Create (u row : User) (t t' : DB) :
  Create u t = Ok (row, t') ->
  First (Where_email (Email u) t') = Ok row.
Proof.
  intros H. apply Create_inv in H as (Habs & -> & _ & He & _).
  unfold Where_email. rewrite filter_app.
  fold (Where_email (Email u) t). rewrite (Where_email_absent _ _ Habs).
  simpl. rewrite He, String.eqb_refl. reflexivity.
Qed.

Lemma unique_emails_Create (u row : User) (t t' : DB) :
  unique_emails t -> Create u t = Ok (row, t') -> unique_emails t'.
Proof.
  unfold unique_emails. intros Hu H.
  apply Create_inv in H as (Habs & -> & _ & He & _).
  rewrite map_app. simpl.
  apply has_Email_absent in Habs.
  assert (Hnot : ~ In (Email row) (map Email t)).
  { intros Hin. apply in_map_iff in Hin as [r [Hr Hin]].
    apply Habs. exists r. split; congruence. }
  clear Habs He. induction t as [|x t IH]; simpl.
  - constructor; [intros [] | constructor].
  - inversion Hu as [|? ? Hx Ht]; subst. constructor.
    + rewrite in_app_iff. intros [Hin | [Hin | []]]; [auto |].
      apply Hnot. left. congruence.
    + apply IH; trivial. intros Hin. apply Hnot. now right.
Qed.

(** Under the invariant a registered email has exactly one account. *)
Lemma accounts_of_unique (email : string) (t : DB) :
  unique_emails t -> registered email t -> accounts_of email t = 1%nat.
Proof.
  unfold unique_emails, accounts_of, Where_email, registered.
  induction t as [|x t IH]; simpl; intros Hu [r [Hin He]]; [destruct Hin |].
  inversion Hu as [|? ? Hx Ht]; subst.
  destruct (String.eqb_spec (Email x) (Email r)) as [E | E].
  - simpl. f_equal.
    assert (Habs : has_Email (Email r) t = false).
    { apply has_Email_absent. intros [r' [Hin' He']].
      apply Hx. apply in_map_iff. exists r'. split; congruence. }
    apply Where_email_absent in Habs. unfold Where_email in Habs.
    now rewrite Habs.
  - destruct Hin as [-> | Hin]; [congruence |]. apply IH; eauto.
Qed.

Lemma ID_below_next (t : DB) (r : User) :
  In r t -> (ID r < next_ID t)%N.
Proof.
  unfold next_ID. induction t as [|x t IH]; simpl; [intros [] |].
  intros [-> | Hin]; [lia |]. specialize (IH Hin). lia.
Qed.

Lemma next_ID_fresh (t : DB) : has_ID (next_ID t) t = false.
Proof.
  unfold has_ID. apply not_true_is_false. rewrite existsb_exists.
  intros [r [Hin E]]. apply N.eqb_eq in E.
  pose proof (ID_below_next t r Hin). lia.
Qed.

(** A row that asks for a generated key and brings a new email is
    stored. *)
Lemma Create_fresh (u : User) (t : DB) :
  ID u = 0%N -> ~ registered (Email u) t ->
  exists row, Create u t = Ok (row, t ++ [row]).
Proof.
  intros Hid Habs. apply has_Email_absent in Habs. unfold Create.
  rewrite Hid. cbn [N.eqb]. rewrite next_ID_fresh, Habs. eauto.
Qed.

End store_facts.

(** ** The model of the hash format *)

Section ModelFacts.

Import bcrypt.

Variable core : string -> Z -> string -> string.

(** The derivation delivers digests of the encoded size. *)
Hypothesis core_length :
  forall password c rnd,
    String.length (core password c rnd) = encodedHashSize.

Lemma digit_value_digit (d : Z) :
  0 <= d <= 9 -> digit_value (digit d) = Some d.
Proof.
  intros H.
  assert (E : d = 0 \/ d = 1 \/ d = 2 \/ d = 3 \/ d = 4 \/ d = 5 \/ d = 6
              \/ d = 7 \/ d = 8 \/ d = 9) by lia.
  repeat (destruct E as [-> | E]; [reflexivity |]). now subst.
Qed.

Lemma newFromPassword_inv (rnd password : string) (c : Z) (p : hashed) :
  newFromPassword core rnd password c = Ok p ->
  exists c', MinCost <= c' <= MaxCost /\
             String.length rnd = encodedSaltSize /\
             p = {| hash := core password c' rnd; salt := rnd; cost := c';
                    major := "2"; minor := "a" |}.
Proof.
  unfold newFromPassword, checkCost.
  set (c' := if c <? MinCost then DefaultCost else c).
  destruct (c' <? MinCost) eqn:Hlo; simpl; [discriminate |].
  destruct (c' >? MaxCost) eqn:Hhi; simpl; [discriminate |].
  destruct (Nat.eqb (String.length rnd) encodedSaltSize) eqn:Hlen;
    [| discriminate].
  intros E; injection E as <-. exists c'. repeat split.
  - now apply Z.ltb_ge.
  - rewrite Z.gtb_ltb in Hhi. now apply Z.ltb_ge.
  - now apply Nat.eqb_eq.
Qed.

(** Reading a freshly serialised hash gives back its parts: the salt and
    the cost are recovered from the output alone. *)
Lemma newFromHash_Hash (rnd password : string) (c : Z) (p : hashed) :
  newFromPassword core rnd password c = Ok p ->
  newFromHash (Hash p) = Ok p.
Proof.
  intros H. apply newFromPassword_inv in H as (c' & Hc & Hlen & ->).
  unfold MinCost, MaxCost in Hc.
  unfold newFromHash, Hash; cbn [major minor cost salt hash].
  replace (Ascii.eqb "a" zero) with false by reflexivity.
  cbn [append cost_digits].
  assert (Hsz : Nat.ltb
            (String.length
               (String "$" (String "2" (String "a" (String "$"
                  (String (digit (c' / 10)) (String (digit (c' mod 10))
                     (String "$" (rnd ++ core password c' rnd)%string))))))))
            minHashSize = false).
  { cbn [String.length]. rewrite length_append, Hlen, core_length.
    reflexivity. }
  rewrite Hsz.
  replace (negb (Ascii.eqb "$" "$")) with false by reflexivity.
  replace (Nat.ltb (nat_of_ascii "2") (nat_of_ascii "2")) with false
    by reflexivity.
  replace (Ascii.eqb "a" "$") with false by reflexivity.
  cbn [drop].
  assert (Hq : 0 <= c' / 10 <= 9).
  { split; [apply Z.div_pos; lia |].
    apply Z.lt_succ_r, Z.div_lt_upper_bound; lia. }
  assert (Hr : 0 <= c' mod 10 <= 9).
  { pose proof (Z.mod_pos_bound c' 10). lia. }
  rewrite (digit_value_digit _ Hq), (digit_value_digit _ Hr).
  replace (10 * (c' / 10) + c' mod 10) with c'
    by (rewrite (Z.div_mod c' 10) at 1; lia).
  unfold checkCost, MinCost, MaxCost.
  replace (c' <? 4) with false by (symmetry; apply Z.ltb_ge; lia).
  replace (c' >? 31) with false
    by (symmetry; rewrite Z.gtb_ltb; apply Z.ltb_ge; lia).
  cbn [orb]. rewrite <- Hlen at 1 2.
  now rewrite take_app_length, drop_app_length.
Qed.

(** Verifying the password a hash was generated from succeeds. *)
Lemma model_verifies_generated (rnd password h : string) (c : Z) :
  model_GenerateFromPassword core rnd password c = Ok h ->
  model_CompareHashAndPassword core h password = None.
Proof.
  unfold model_GenerateFromPassword, model_CompareHashAndPassword.
  destruct (newFromPassword core rnd password c) as [p|e] eqn:E;
    [| discriminate].
  intros H; injection H as <-.
  rewrite (newFromHash_Hash _ _ _ _ E).
  apply newFromPassword_inv in E as (c' & _ & _ & ->).
  cbn [major minor cost salt hash]. now rewrite String.eqb_refl.
Qed.

(** With a whole salt and a cost within bounds, hashing returns a hash. *)
(** Every serialised hash starts with a dollar sign. *)
Lemma Hash_starts_with_dollar (p : hashed) :
  exists s, Hash p = String "$" s.
Proof. unfold Hash. eauto. Qed.

Lemma model_generates (rnd password : string) (c : Z) :
  String.length rnd = encodedSaltSize -> c <= MaxCost ->
  exists p, newFromPassword core rnd password c = Ok p.
Proof.
  intros Hlen Hc. unfold newFromPassword, checkCost.
  set (c' := if c <? MinCost then DefaultCost else c).
  assert (Hc' : MinCost <= c' <= MaxCost).
  { subst c'. unfold MinCost, MaxCost, DefaultCost in *.
    destruct (Z.ltb_spec c 4); lia. }
  replace (c' <? MinCost) with false by (symmetry; apply Z.ltb_ge; lia).
  replace (c' >? MaxCost) with false
    by (symmetry; rewrite Z.gtb_ltb; apply Z.ltb_ge; lia).
  cbn [orb]. rewrite Hlen, Nat.eqb_refl. eauto.
Qed.

End ModelFacts.

(** ** The handlers *)

Ltac run_handler :=
  unfold registerUser, loginUser, bind, ret, bcrypt_GenerateFromPassword,
    bcrypt_CompareHashAndPassword, db_Create, db_Where_email_First, record;
  cbn [db entropy calls].

Ltac run_handler_in H :=
  unfold registerUser, loginUser, bind, ret, bcrypt_GenerateFromPassword,
    bcrypt_CompareHashAndPassword, db_Create, db_Where_email_First, record in H;
  cbn [db entropy calls] in H.

Lemma required_User (user : User) :
  String.eqb (Name user) EmptyString
  || String.eqb (Email user) EmptyString
  || String.eqb (Password user) EmptyString = true
  <-> Name user = EmptyString \/ Email user = EmptyString
      \/ Password user = EmptyString.
Proof.
  rewrite !orb_true_iff, !String.eqb_eq. tauto.
Qed.

Lemma required_LoginInput (input : LoginInput) :
  String.eqb (input_Email input) EmptyString
  || String.eqb (input_Password input) EmptyString = true
  <-> input_Email input = EmptyString \/ input_Password input = EmptyString.
Proof.
  rewrite !orb_true_iff, !String.eqb_eq. tauto.
Qed.

Lemma present_User (user : User) :
  Name user <> EmptyString -> Email user <> EmptyString ->
  Password user <> EmptyString ->
  String.eqb (Name user) EmptyString
  || String.eqb (Email user) EmptyString
  || String.eqb (Password user) EmptyString = false.
Proof.
  intros Hn He Hp. apply not_true_is_false. rewrite required_User. tauto.
Qed.

Lemma present_LoginInput (input : LoginInput) :
  input_Email input <> EmptyString -> input_Password input <> EmptyString ->
  String.eqb (input_Email input) EmptyString
  || String.eqb (input_Password input) EmptyString = false.
Proof.
  intros He Hp. apply not_true_is_false. rewrite required_LoginInput. tauto.
Qed.

Section HandlerFacts.

Context {Ctx : Type}.
Context {hasher : bcrypt.Hasher}.
Context {decodes_User : Decodes Ctx User}.
Context {decodes_LoginInput : Decodes Ctx LoginInput}.

(** [loginUser] never writes to the store. *)
Lemma loginUser_db (c : Ctx) (w : World) :
  db (snd (loginUser c w)) = db w.
Proof.
  run_handler. destruct (BodyParser c) as [input|e]; [| reflexivity].
  destruct (_ || _); [reflexivity |].
  destruct (gorm.First _) as [u|e]; [| reflexivity].
  destruct (bcrypt.CompareHashAndPassword _ _); reflexivity.
Qed.

(** [registerUser] leaves the table as it was, unless it answers 200,
    in which case the table gained the row of one successful [Create]. *)
Lemma registerUser_db (c : Ctx) (w : World) :
  (status (fst (registerUser c w)) <> StatusOK /\
   db (snd (registerUser c w)) = db w)
  \/ (exists user h row,
        BodyParser c = Ok user /\
        gorm.Create (set_Password user h) (db w)
          = Ok (row, db (snd (registerUser c w)))).
Proof.
  run_handler. destruct (BodyParser c) as [user|e];
    [| left; split; [discriminate | reflexivity]].
  destruct (_ || _); [left; split; [discriminate | reflexivity] |].
  destruct (entropy w) as [|rnd later];
    [left; split; [discriminate | reflexivity] |].
  destruct (bcrypt.GenerateFromPassword rnd _ _) as [h|e];
    [| left; split; [discriminate | reflexivity]].
  cbn [db entropy calls].
  destruct (gorm.Create _ _) as [[row t]|e] eqn:E;
    [| left; split; [discriminate | reflexivity]].
  right. exists user, h, row. auto.
Qed.

Lemma registerUser_unique (c : Ctx) (w : World) :
  unique_emails (db w) -> unique_emails (db (snd (registerUser c w))).
Proof.
  intros Hu. destruct (registerUser_db c w) as [[_ ->] | H]; trivial.
  destruct H as (user & h & row & _ & E).
  eapply store_facts.unique_emails_Create; eassumption.
Qed.

Lemma serve_unique (q : Request) (w : World) :
  unique_emails (db w) -> unique_emails (db (snd (serve q w))).
Proof.
  destruct q as [c|c]; simpl.
  - apply registerUser_unique.
  - now rewrite loginUser_db.
Qed.

Lemma serve_all_unique (qs : list Request) (w : World) :
  unique_emails (db w) -> unique_emails (db (serve_all qs w)).
Proof.
  revert w; induction qs as [|q qs IH]; intros w Hu; simpl; trivial.
  apply IH, serve_unique, Hu.
Qed.

(** A registration that answers 200 hashed the password under the salt
    at the head of the random source and created the row. *)
Lemma registerUser_success_inv (c : Ctx) (w : World) :
  status (fst (registerUser c w)) = StatusOK ->
  exists user rnd later h row t,
    BodyParser c = Ok user /\
    entropy w = rnd :: later /\
    bcrypt.GenerateFromPassword rnd (Password user) bcrypt.DefaultCost
      = Ok h /\
    gorm.Create (set_Password user h) (db w) = Ok (row, t) /\
    db (snd (registerUser c w)) = t.
Proof.
  run_handler. destruct (BodyParser c) as [user|e]; [| discriminate].
  destruct (_ || _); [discriminate |].
  destruct (entropy w) as [|rnd later]; [discriminate |].
  destruct (bcrypt.GenerateFromPassword rnd _ _) as [h|e] eqn:Eh;
    [| discriminate].
  cbn [db entropy calls].
  destruct (gorm.Create _ _) as [[row t]|e] eqn:Ec; [| discriminate].
  intros _. exists user, rnd, later, h, row, t. auto.
Qed.

(** The answer of [registerUser] once the password is hashed: it is
    decided by the store alone. *)
Lemma registerUser_hashed (c : Ctx) (w : World) (user : User)
      (rnd : string) (later : list string) (h : string) :
  BodyParser c = Ok user ->
  Name user <> EmptyString -> Email user <> EmptyString ->
  Password user <> EmptyString ->
  entropy w = rnd :: later ->
  bcrypt.GenerateFromPassword rnd (Password user) bcrypt.DefaultCost
    = Ok h ->
  registerUser c w
  = let log := (calls w
                ++ [CallGenerateFromPassword (Password user)
                      bcrypt.DefaultCost])
               ++ [CallCreate (set_Password user h)] in
    match gorm.Create (set_Password user h) (db w) with
    | Ok (_, t) =>
        ({| status := 200;
            body := [("message", "User registered successfully")] |},
         {| db := t; entropy := later; calls := log |})
    | Err _ =>
        ({| status := 500;
            body := [("error", "Failed to save user to database")] |},
         {| db := db w; entropy := later; calls := log |})
    end.
Proof.
  intros P Hn He Hp Hent Hh. run_handler.
  rewrite P, (present_User user Hn He Hp), Hent, Hh. cbn [db entropy calls].
  destruct (gorm.Create _ _) as [[row t]|e]; reflexivity.
Qed.

(** The answer of [loginUser] to a well-formed request: it is decided by
    the lookup and the verification. *)
Lemma loginUser_validated (c : Ctx) (w : World) (input : LoginInput) :
  BodyParser c = Ok input ->
  input_Email input <> EmptyString ->
  input_Password input <> EmptyString ->
  fst (loginUser c w)
  = match gorm.First (gorm.Where_email (input_Email input) (db w)) with
    | Err _ =>
        {| status := 401; body := [("error", "Invalid email or password")] |}
    | Ok user =>
        match bcrypt.CompareHashAndPassword
                (Password user) (input_Password input) with
        | Some _ =>
            {| status := 401;
               body := [("error", "Invalid email or password")] |}
        | None =>
            {| status := 200; body := [("message", "Login successful")] |}
        end
    end.
Proof.
  intros P He Hp. run_handler.
  rewrite P, (present_LoginInput input He Hp).
  destruct (gorm.First _) as [u|e]; [| reflexivity].
  destruct (bcrypt.CompareHashAndPassword _ _); reflexivity.
Qed.

(** Whatever the request and the world, the answer is one of the
    literal responses of [main.go]. *)
Lemma registerUser_literal (c : Ctx) (w : World) :
  In (fst (registerUser c w)) register_literals.
Proof.
  run_handler. unfold register_literals.
  destruct (BodyParser c) as [user|e]; [| simpl; tauto].
  destruct (_ || _); [simpl; tauto |].
  destruct (entropy w) as [|rnd later]; [simpl; tauto |].
  destruct (bcrypt.GenerateFromPassword rnd _ _) as [h|e];
    [| simpl; tauto].
  cbn [db entropy calls].
  destruct (gorm.Create _ _) as [[row t]|e]; simpl; tauto.
Qed.

Lemma loginUser_literal (c : Ctx) (w : World) :
  In (fst (loginUser c w)) login_literals.
Proof.
  run_handler. unfold login_literals.
  destruct (BodyParser c) as [input|e]; [| simpl; tauto].
  destruct (_ || _); [simpl; tauto |].
  destruct (gorm.First _) as [u|e]; [| simpl; tauto].
  destruct (bcrypt.CompareHashAndPassword _ _); simpl; tauto.
Qed.

End HandlerFacts.

(** ** The stand-in derivation meets the assumption of the model *)

Lemma render_length (n : nat) (v : N) :
  String.length (standin.render n v) = n.
Proof.
  revert v; induction n as [|n IH]; intros v; simpl; [reflexivity |].
  now rewrite IH.
Qed.

Lemma standin_core_length (password : string) (c : Z) (rnd : string) :
  String.length (standin.core password c rnd) = bcrypt.encodedHashSize.
Proof. apply render_length. Qed.

Lemma standin_verifies_generated (rnd password : string) (c : Z) (h : string) :
  bcrypt.GenerateFromPassword (Hasher := standin.hasher) rnd password c
    = Ok h ->
  bcrypt.CompareHashAndPassword (Hasher := standin.hasher) h password = None.
Proof. apply model_verifies_generated, standin_core_length. Qed.

(* ================================================================= *)
(** * The claims of the specification *)

(** C1. For every non-empty name, email and password, a registration that
    succeeds, followed immediately by a login with the same email and
    password, is answered 200 with the message [Login successful]. The
    hash is assumed to verify the password it was generated from. *)
Theorem register_then_login_succeeds
    {Ctx : Type} {hasher : bcrypt.Hasher}
    {decodes_User : Decodes Ctx User}
    {decodes_LoginInput : Decodes Ctx LoginInput}
    (c1 c2 : Ctx) (w : World) (id : N) (name email password : string) :
  (forall rnd p c h,
      bcrypt.GenerateFromPassword rnd p c = Ok h ->
      bcrypt.CompareHashAndPassword h p = None) ->
  name <> EmptyString -> email <> EmptyString -> password <> EmptyString ->
  BodyParser c1 = Ok {| ID := id; Name := name; Email := email;
                        Password := password |} ->
  BodyParser c2 = Ok {| input_Email := email; input_Password := password |} ->
  fst (registerUser c1 w)
    = {| status := 200; body := [("message", "User registered successfully")] |} ->
  fst (loginUser c2 (snd (registerUser c1 w)))
    = {| status := 200; body := [("message", "Login successful")] |}.
Proof.
  intros law Hn He Hp P1 P2 Hs.
  assert (Hst : status (fst (registerUser c1 w)) = StatusOK)
    by (rewrite Hs; reflexivity).
  destruct (registerUser_success_inv _ _ Hst)
    as (user & rnd & later & h & row & t & Pu & _ & Eh & Ec & Edb).
  rewrite P1 in Pu; injection Pu as <-. cbn [Password] in Eh.
  pose proof (store_facts.First_after_Create _ _ _ _ Ec) as Hfirst.
  apply store_facts.Create_inv in Ec as (_ & _ & _ & _ & Hpw).
  cbn [set_Password Email Password] in Hfirst, Hpw.
  unfold loginUser, bind, ret, db_Where_email_First,
    bcrypt_CompareHashAndPassword, record.
  rewrite P2. cbn [input_Email input_Password].
  rewrite (proj2 (String.eqb_neq _ _) He), (proj2 (String.eqb_neq _ _) Hp).
  cbn [orb]. rewrite Edb, Hfirst, Hpw, (law _ _ _ _ Eh). reflexivity.
Qed.

Lemma register_then_login_succeeds_witness :
  fst (scenario.login scenario.login_ann
         (snd (scenario.register scenario.register_ann scenario.start)))
    = {| status := 200; body := [("message", "Login successful")] |}.
Proof.
  apply (register_then_login_succeeds
           (hasher := standin.hasher)
           (decodes_User := wire.decodes_User)
           (decodes_LoginInput := wire.decodes_LoginInput)
           scenario.register_ann scenario.login_ann scenario.start
           0%N "Ann" "ann@x.com" "s3cret").
  - exact standin_verifies_generated.
  - discriminate.
  - discriminate.
  - discriminate.
  - reflexivity.
  - reflexivity.
  - vm_compute. reflexivity.
Defined.

Lemma outcome_Success (r : Response) :
  outcome r = Success <-> status r = StatusOK.
Proof.
  unfold outcome. split.
  - destruct (status r =? StatusOK) eqn:E; [intros _; now apply Z.eqb_eq |].
    repeat (destruct (_ =? _); [discriminate |]). discriminate.
  - intros ->. reflexivity.
Qed.

(** C2. A registration for an email that is already registered fails: it
    is never answered with the success outcome, it leaves the table as it
    was, and the table holds exactly one account for that email. No two
    stored accounts share an email, and [registerUser], [loginUser] and
    every sequence of requests keep it so. *)
Theorem duplicate_registration_rejected
    {Ctx : Type} {hasher : bcrypt.Hasher}
    {decodes_User : Decodes Ctx User}
    {decodes_LoginInput : Decodes Ctx LoginInput}
    (c : Ctx) (w : World) (user : User) (qs : list Request) :
  unique_emails (db w) ->
  (BodyParser c = Ok user -> registered (Email user) (db w) ->
     outcome (fst (registerUser c w)) <> Success /\
     db (snd (registerUser c w)) = db w /\
     accounts_of (Email user) (db (snd (registerUser c w))) = 1%nat)
  /\ unique_emails (db (snd (registerUser c w)))
  /\ unique_emails (db (snd (loginUser c w)))
  /\ unique_emails (db (serve_all qs w)).
Proof.
  intros Hu. repeat split.
  - intros Hs. apply outcome_Success in Hs.
    destruct (registerUser_db c w) as [[Hne _] | (u & h & row & Pu & Ec)];
      [contradiction |].
    rewrite H in Pu; injection Pu as <-.
    apply store_facts.Create_inv in Ec as (Habs & _).
    apply store_facts.has_Email_absent in Habs. now apply Habs.
  - destruct (registerUser_db c w) as [[_ E] | (u & h & row & Pu & Ec)];
      [exact E |].
    rewrite H in Pu; injection Pu as <-.
    apply store_facts.Create_inv in Ec as (Habs & _).
    apply store_facts.has_Email_absent in Habs. now destruct Habs.
  - destruct (registerUser_db c w) as [[_ E] | (u & h & row & Pu & Ec)].
    + rewrite E. now apply store_facts.accounts_of_unique.
    + rewrite H in Pu; injection Pu as <-.
      apply store_facts.Create_inv in Ec as (Habs & _).
      apply store_facts.has_Email_absent in Habs. now destruct Habs.
  - now apply registerUser_unique.
  - now rewrite loginUser_db.
  - now apply serve_all_unique.
Qed.

Lemma duplicate_registration_rejected_witness :
  outcome (fst (scenario.register scenario.register_ann scenario.with_ann))
    <> Success /\
  db (snd (scenario.register scenario.register_ann scenario.with_ann))
    = db scenario.with_ann /\
  accounts_of "ann@x.com"
    (db (snd (scenario.register scenario.register_ann scenario.with_ann)))
    = 1%nat /\
  unique_emails
    (db (scenario.serve_requests
           [PostRegister scenario.register_ann; PostLogin scenario.login_ann]
           scenario.with_ann)).
Proof.
  assert (Hu : unique_emails (db scenario.with_ann)).
  { unfold unique_emails. simpl. constructor; [intros [] | constructor]. }
  destruct (duplicate_registration_rejected
              (hasher := standin.hasher)
              (decodes_User := wire.decodes_User)
              (decodes_LoginInput := wire.decodes_LoginInput)
              scenario.register_ann scenario.with_ann
              {| ID := 0; Name := "Ann"; Email := "ann@x.com";
                 Password := "s3cret" |}
              [PostRegister scenario.register_ann;
               PostLogin scenario.login_ann] Hu)
    as (Hdup & _ & _ & Hall).
  destruct Hdup as (Hout & Hdb & Hone).
  - reflexivity.
  - eexists. split; [left; reflexivity | reflexivity].
  - exact (conj Hout (conj Hdb (conj Hone Hall))).
Defined.

(** C3. For every store and every non-empty email and password, a login
    under an email that no stored account has and a login under a stored
    email whose password does not verify are answered identically: status
    401 and the error [Invalid email or password]. *)
Theorem login_failures_indistinguishable
    {Ctx : Type} {hasher : bcrypt.Hasher}
    {decodes_User : Decodes Ctx User}
    {decodes_LoginInput : Decodes Ctx LoginInput}
    (c1 c2 : Ctx) (w : World) (email1 password1 email2 password2 : string) :
  email1 <> EmptyString -> password1 <> EmptyString ->
  email2 <> EmptyString -> password2 <> EmptyString ->
  BodyParser c1
    = Ok {| input_Email := email1; input_Password := password1 |} ->
  BodyParser c2
    = Ok {| input_Email := email2; input_Password := password2 |} ->
  ~ registered email1 (db w) ->
  registered email2 (db w) ->
  (forall u, In u (db w) -> Email u = email2 ->
             bcrypt.CompareHashAndPassword (Password u) password2 <> None) ->
  fst (loginUser c1 w) = fst (loginUser c2 w) /\
  fst (loginUser c1 w)
    = {| status := 401; body := [("error", "Invalid email or password")] |} /\
  outcome (fst (loginUser c1 w)) = UnauthorizedError.
Proof.
  intros He1 Hp1 He2 Hp2 P1 P2 Habs Hreg Hbad.
  assert (E1 : fst (loginUser c1 w)
               = {| status := 401;
                    body := [("error", "Invalid email or password")] |}).
  { run_handler. rewrite P1. cbn [input_Email input_Password].
    rewrite (proj2 (String.eqb_neq _ _) He1), (proj2 (String.eqb_neq _ _) Hp1).
    cbn [orb]. now rewrite (store_facts.First_absent _ _ Habs). }
  assert (E2 : fst (loginUser c2 w)
               = {| status := 401;
                    body := [("error", "Invalid email or password")] |}).
  { run_handler. rewrite P2. cbn [input_Email input_Password].
    rewrite (proj2 (String.eqb_neq _ _) He2), (proj2 (String.eqb_neq _ _) Hp2).
    cbn [orb]. destruct (store_facts.First_registered _ _ Hreg) as [u Hu].
    rewrite Hu. apply store_facts.First_found in Hu as [Hin Hmail].
    specialize (Hbad u Hin Hmail).
    destruct (bcrypt.CompareHashAndPassword (Password u) password2);
      [reflexivity | contradiction]. }
  rewrite E1, E2. repeat split.
Qed.

Lemma login_failures_indistinguishable_witness :
  fst (scenario.login scenario.login_nobody scenario.with_ann)
    = fst (scenario.login scenario.login_ann_wrong scenario.with_ann) /\
  fst (scenario.login scenario.login_nobody scenario.with_ann)
    = {| status := 401; body := [("error", "Invalid email or password")] |} /\
  outcome (fst (scenario.login scenario.login_nobody scenario.with_ann))
    = UnauthorizedError.
Proof.
  apply (login_failures_indistinguishable
           (hasher := standin.hasher)
           (decodes_User := wire.decodes_User)
           (decodes_LoginInput := wire.decodes_LoginInput)
           scenario.login_nobody scenario.login_ann_wrong scenario.with_ann
           "nobody@x.com" "s3cret" "ann@x.com" "wrong").
  - discriminate.
  - discriminate.
  - discriminate.
  - discriminate.
  - reflexivity.
  - reflexivity.
  - intros [r [[<- | []] E]]. discriminate E.
  - eexists. split; [left; reflexivity | reflexivity].
  - intros u [<- | []] _. vm_compute. discriminate.
Defined.




(** C5, as the specification states it, does not hold. The stored hash of
    Ann is damaged: verification fails with an error that is not a
    mismatch, and the login is answered 401, not with an internal error. *)
Lemma malformed_hash_is_not_InternalError :
  bcrypt.CompareHashAndPassword (Hasher := standin.hasher)
    "corrupted" "s3cret" = Some bcrypt.ErrHashTooShort /\
  fst (scenario.login scenario.login_ann scenario.damaged)
    = {| status := 401; body := [("error", "Invalid email or password")] |} /\
  outcome (fst (scenario.login scenario.login_ann scenario.damaged))
    <> InternalError.
Proof.
  split; [| split].
  - reflexivity.
  - reflexivity.
  - vm_compute. discriminate.
Qed.

(** C5, amended. During a login, every error of the verification, a
    mismatch and a malformed stored hash alike, is answered as
    unauthorized: status 401 with the error [Invalid email or password].
    [loginUser] never answers with an internal error. *)
Theorem verification_error_is_UnauthorizedError
    {Ctx : Type} {hasher : bcrypt.Hasher}
    {decodes_User : Decodes Ctx User}
    {decodes_LoginInput : Decodes Ctx LoginInput}
    (c : Ctx) (w : World) (email password : string) (u : User)
    (e : bcrypt.Error) :
  BodyParser c = Ok {| input_Email := email; input_Password := password |} ->
  email <> EmptyString -> password <> EmptyString ->
  gorm.First (gorm.Where_email email (db w)) = Ok u ->
  bcrypt.CompareHashAndPassword (Password u) password = Some e ->
  fst (loginUser c w)
    = {| status := 401; body := [("error", "Invalid email or password")] |} /\
  outcome (fst (loginUser c w)) = UnauthorizedError /\
  (forall c' w', outcome (fst (loginUser c' w')) <> InternalError).
Proof.
  intros P He Hp Hfirst Hcmp.
  pose proof (loginUser_validated c w _ P He Hp) as Hrun.
  cbn [input_Email input_Password] in Hrun. rewrite Hfirst, Hcmp in Hrun.
  rewrite Hrun. repeat split.
  intros c' w'. pose proof (loginUser_literal c' w') as Hlit.
  unfold login_literals in Hlit. simpl in Hlit.
  repeat (destruct Hlit as [<- | Hlit]; [discriminate |]). destruct Hlit.
Qed.

Lemma verification_error_is_UnauthorizedError_witness :
  fst (scenario.login scenario.login_ann scenario.damaged)
    = {| status := 401; body := [("error", "Invalid email or password")] |} /\
  outcome (fst (scenario.login scenario.login_ann scenario.damaged))
    = UnauthorizedError.
Proof.
  destruct (verification_error_is_UnauthorizedError
              (hasher := standin.hasher)
              (decodes_User := wire.decodes_User)
              (decodes_LoginInput := wire.decodes_LoginInput)
              scenario.login_ann scenario.damaged "ann@x.com" "s3cret"
              {| ID := 1; Name := "Ann"; Email := "ann@x.com";
                 Password := "corrupted" |}
              bcrypt.ErrHashTooShort)
    as (Hresp & Hout & _).
  - reflexivity.
  - discriminate.
  - discriminate.
  - reflexivity.
  - reflexivity.
  - exact (conj Hresp Hout).
Defined.

(** C6. A request that was decoded with a required field equal to the
    empty string is answered 400 with the validation error, and the world
    is left as it was: the table, the random source and the record of
    calls, so neither the hash nor the store was reached. The test is
    exact emptiness: the validation error is the answer only when a
    required field is the empty string. *)
Theorem empty_field_is_ValidationError
    {Ctx : Type} {hasher : bcrypt.Hasher}
    {decodes_User : Decodes Ctx User}
    {decodes_LoginInput : Decodes Ctx LoginInput}
    (c : Ctx) (w : World) :
  (forall user, BodyParser c = Ok user ->
     ((Name user = EmptyString \/ Email user = EmptyString
       \/ Password user = EmptyString) ->
        registerUser c w
          = ({| status := 400;
                body := [("error",
                          "Name, email, and password are required")] |}, w)
        /\ outcome (fst (registerUser c w)) = ValidationError)
     /\ (fst (registerUser c w)
           = {| status := 400;
                body := [("error",
                          "Name, email, and password are required")] |}
         -> Name user = EmptyString \/ Email user = EmptyString
            \/ Password user = EmptyString))
  /\ (forall input, BodyParser c = Ok input ->
        ((input_Email input = EmptyString
          \/ input_Password input = EmptyString) ->
           loginUser c w
             = ({| status := 400;
                   body := [("error", "Email and password are required")] |},
                w)
           /\ outcome (fst (loginUser c w)) = ValidationError)
        /\ (fst (loginUser c w)
              = {| status := 400;
                   body := [("error", "Email and password are required")] |}
            -> input_Email input = EmptyString
               \/ input_Password input = EmptyString)).
Proof.
  split.
  - intros user P. split.
    + intros H. apply required_User in H. run_handler.
      rewrite P, H. split; reflexivity.
    + intros H. apply required_User. revert H. run_handler. rewrite P.
      destruct (_ || _); [reflexivity |].
      destruct (entropy w) as [|rnd later]; [discriminate |].
      destruct (bcrypt.GenerateFromPassword rnd _ _) as [h|e];
        [| discriminate].
      cbn [db entropy calls].
      destruct (gorm.Create _ _) as [[row t]|e]; discriminate.
  - intros input P. split.
    + intros H. apply required_LoginInput in H. run_handler.
      rewrite P, H. split; reflexivity.
    + intros H. apply required_LoginInput. revert H. run_handler. rewrite P.
      destruct (_ || _); [reflexivity |].
      destruct (gorm.First _) as [u|e]; [| discriminate].
      destruct (bcrypt.CompareHashAndPassword _ _); discriminate.
Qed.

Lemma empty_field_is_ValidationError_witness :
  (scenario.register scenario.register_no_email scenario.with_ann
     = ({| status := 400;
           body := [("error", "Name, email, and password are required")] |},
        scenario.with_ann) /\
   outcome (fst (scenario.register scenario.register_no_email
                   scenario.with_ann))
     = ValidationError) /\
  (scenario.login scenario.login_no_password scenario.with_ann
     = ({| status := 400;
           body := [("error", "Email and password are required")] |},
        scenario.with_ann) /\
   outcome (fst (scenario.login scenario.login_no_password scenario.with_ann))
     = ValidationError).
Proof.
  split.
  - apply (proj1 (empty_field_is_ValidationError
                    (hasher := standin.hasher)
                    (decodes_User := wire.decodes_User)
                    (decodes_LoginInput := wire.decodes_LoginInput)
                    scenario.register_no_email scenario.with_ann)
             {| ID := 0; Name := "Ann"; Email := EmptyString;
                Password := "s3cret" |}).
    + reflexivity.
    + right. left. reflexivity.
  - apply (proj2 (empty_field_is_ValidationError
                    (hasher := standin.hasher)
                    (decodes_User := wire.decodes_User)
                    (decodes_LoginInput := wire.decodes_LoginInput)
                    scenario.login_no_password scenario.with_ann)
             {| input_Email := "ann@x.com"; input_Password := EmptyString |}).
    + reflexivity.
    + right. reflexivity.
Defined.

(** A password that is a single blank is not empty: nothing is trimmed,
    and the registration goes through. *)
Lemma blank_password_is_accepted :
  fst (scenario.register scenario.register_blank_password scenario.start)
    = {| status := 200;
         body := [("message", "User registered successfully")] |}.
Proof. vm_compute. reflexivity. Qed.

(** C10. A request whose body cannot be decoded is answered 400 with the
    error [Failed to parse request body] by both handlers, and the world is
    left as it was: the table, the random source and the record of calls,
    so no field was validated and neither the hash nor the store was
    reached. *)
Theorem unparsable_body_is_rejected
    {Ctx : Type} {hasher : bcrypt.Hasher}
    {decodes_User : Decodes Ctx User}
    {decodes_LoginInput : Decodes Ctx LoginInput}
    (c : Ctx) (w : World) :
  (forall e, BodyParser (T := User) c = Err e ->
     registerUser c w
       = ({| status := 400;
             body := [("error", "Failed to parse request body")] |}, w))
  /\ (forall e, BodyParser (T := LoginInput) c = Err e ->
        loginUser c w
          = ({| status := 400;
                body := [("error", "Failed to parse request body")] |}, w)).
Proof.
  unfold registerUser, loginUser, ret.
  split; intros e P; rewrite P; reflexivity.
Qed.

Lemma unparsable_body_is_rejected_witness :
  scenario.register wire.Garbled scenario.with_ann
    = ({| status := 400; body := [("error", "Failed to parse request body")] |},
       scenario.with_ann)
  /\ scenario.login wire.Garbled scenario.with_ann
     = ({| status := 400;
           body := [("error", "Failed to parse request body")] |},
        scenario.with_ann).
Proof.
  pose proof (unparsable_body_is_rejected
                (hasher := standin.hasher)
                (decodes_User := wire.decodes_User)
                (decodes_LoginInput := wire.decodes_LoginInput)
                wire.Garbled scenario.with_ann) as [Hreg Hlog].
  split.
  - apply (Hreg ErrUnprocessableEntity). reflexivity.
  - apply (Hlog ErrUnprocessableEntity). reflexivity.
Defined.

(** C7. In the model of the hash: for every password, two invocations of
    the hashing function, each under a fresh salt, both return a hash;
    the two hashes differ; each carries its salt inside, where reading the
    hash recovers it; and verifying the password against either succeeds,
    from the hash and the password alone. *)
Theorem hashing_twice_differs_and_verifies
    (core : string -> Z -> string -> string)
    (password rnd1 rnd2 : string) (c : Z) :
  (forall p k s, String.length (core p k s) = bcrypt.encodedHashSize) ->
  String.length rnd1 = bcrypt.encodedSaltSize ->
  String.length rnd2 = bcrypt.encodedSaltSize ->
  rnd1 <> rnd2 ->
  c <= bcrypt.MaxCost ->
  exists h1 h2 p1 p2,
    bcrypt.model_GenerateFromPassword core rnd1 password c = Ok h1 /\
    bcrypt.model_GenerateFromPassword core rnd2 password c = Ok h2 /\
    h1 <> h2 /\
    bcrypt.newFromHash h1 = Ok p1 /\ bcrypt.salt p1 = rnd1 /\
    bcrypt.newFromHash h2 = Ok p2 /\ bcrypt.salt p2 = rnd2 /\
    bcrypt.model_CompareHashAndPassword core h1 password = None /\
    bcrypt.model_CompareHashAndPassword core h2 password = None.
Proof.
  intros Hcore Hl1 Hl2 Hne Hc.
  destruct (model_generates core rnd1 password c Hl1 Hc) as [p1 E1].
  destruct (model_generates core rnd2 password c Hl2 Hc) as [p2 E2].
  pose proof (newFromHash_Hash core Hcore _ _ _ _ E1) as R1.
  pose proof (newFromHash_Hash core Hcore _ _ _ _ E2) as R2.
  assert (G1 : bcrypt.model_GenerateFromPassword core rnd1 password c
               = Ok (bcrypt.Hash p1))
    by (unfold bcrypt.model_GenerateFromPassword; now rewrite E1).
  assert (G2 : bcrypt.model_GenerateFromPassword core rnd2 password c
               = Ok (bcrypt.Hash p2))
    by (unfold bcrypt.model_GenerateFromPassword; now rewrite E2).
  assert (S1 : bcrypt.salt p1 = rnd1).
  { apply newFromPassword_inv in E1 as (k & _ & _ & ->). reflexivity. }
  assert (S2 : bcrypt.salt p2 = rnd2).
  { apply newFromPassword_inv in E2 as (k & _ & _ & ->). reflexivity. }
  exists (bcrypt.Hash p1), (bcrypt.Hash p2), p1, p2.
  repeat split; trivial.
  - intros E. rewrite E, R2 in R1. injection R1 as <-. congruence.
  - exact (model_verifies_generated core Hcore _ _ _ _ G1).
  - exact (model_verifies_generated core Hcore _ _ _ _ G2).
Qed.

Lemma hashing_twice_differs_and_verifies_witness :
  exists h1 h2 p1 p2,
    bcrypt.model_GenerateFromPassword standin.core scenario.salt1
      "s3cret" bcrypt.DefaultCost = Ok h1 /\
    bcrypt.model_GenerateFromPassword standin.core scenario.salt2
      "s3cret" bcrypt.DefaultCost = Ok h2 /\
    h1 <> h2 /\
    bcrypt.newFromHash h1 = Ok p1 /\ bcrypt.salt p1 = scenario.salt1 /\
    bcrypt.newFromHash h2 = Ok p2 /\ bcrypt.salt p2 = scenario.salt2 /\
    bcrypt.model_CompareHashAndPassword standin.core h1 "s3cret" = None /\
    bcrypt.model_CompareHashAndPassword standin.core h2 "s3cret" = None.
Proof.
  apply (hashing_twice_differs_and_verifies
           standin.core "s3cret" scenario.salt1 scenario.salt2
           bcrypt.DefaultCost).
  - exact standin_core_length.
  - reflexivity.
  - reflexivity.
  - discriminate.
  - vm_compute. discriminate.
Defined.

(** C8. The concrete scenario. On a store that knows neither email,
    registering Ann is answered 200 with [User registered successfully];
    registering her email again is answered with a status other than 200;
    her login with the right password is answered 200 with [Login
    successful]; her login with a wrong password and the login of an
    unknown email are both answered 401 with [Invalid email or password].
    Every answer of either handler is one of the literal responses of
    [main.go], and none of these mentions the passwords of the scenario
    or a text that starts, as every serialised hash does, with a dollar
    sign. *)
Theorem scenario_responses
    {Ctx : Type} {hasher : bcrypt.Hasher}
    {decodes_User : Decodes Ctx User}
    {decodes_LoginInput : Decodes Ctx LoginInput}
    (register_ann login_ann login_wrong login_nobody : Ctx)
    (w : World) (rnd : string) (later : list string) (h : string) :
  BodyParser register_ann
    = Ok {| ID := 0; Name := "Ann"; Email := "ann@x.com";
            Password := "s3cret" |} ->
  BodyParser login_ann
    = Ok {| input_Email := "ann@x.com"; input_Password := "s3cret" |} ->
  BodyParser login_wrong
    = Ok {| input_Email := "ann@x.com"; input_Password := "wrong" |} ->
  BodyParser login_nobody
    = Ok {| input_Email := "nobody@x.com"; input_Password := "s3cret" |} ->
  ~ registered "ann@x.com" (db w) ->
  ~ registered "nobody@x.com" (db w) ->
  entropy w = rnd :: later ->
  bcrypt.GenerateFromPassword rnd "s3cret" bcrypt.DefaultCost = Ok h ->
  bcrypt.CompareHashAndPassword h "s3cret" = None ->
  bcrypt.CompareHashAndPassword h "wrong" <> None ->
  fst (registerUser register_ann w)
    = {| status := 200;
         body := [("message", "User registered successfully")] |}
  /\ status (fst (registerUser register_ann
                    (snd (registerUser register_ann w)))) <> 200
  /\ fst (loginUser login_ann
            (snd (registerUser register_ann
                    (snd (registerUser register_ann w)))))
     = {| status := 200; body := [("message", "Login successful")] |}
  /\ fst (loginUser login_wrong
            (snd (registerUser register_ann
                    (snd (registerUser register_ann w)))))
     = {| status := 401; body := [("error", "Invalid email or password")] |}
  /\ fst (loginUser login_nobody
            (snd (registerUser register_ann
                    (snd (registerUser register_ann w)))))
     = {| status := 401; body := [("error", "Invalid email or password")] |}
  /\ (forall (c : Ctx) (w' : World),
        In (fst (registerUser c w')) response_literals /\
        In (fst (loginUser c w')) response_literals)
  /\ (forall r, In r response_literals ->
        body_mentions "s3cret" r = false /\
        body_mentions "wrong" r = false /\
        forall s, body_mentions (String "$" s) r = false).
Proof.
  intros Preg Pann Pwrong Pnobody Hann Hnobody Hent Hgen Hright Hwrong.
  set (user := {| ID := 0; Name := "Ann"; Email := "ann@x.com";
                  Password := "s3cret" |}) in *.
  destruct (store_facts.Create_fresh (set_Password user h) (db w)
              eq_refl Hann) as [row Ec].
  assert (Hrun : registerUser register_ann w
                 = ({| status := 200;
                       body := [("message",
                                 "User registered successfully")] |},
                    {| db := db w ++ [row]; entropy := later;
                       calls := (calls w
                                 ++ [CallGenerateFromPassword "s3cret"
                                       bcrypt.DefaultCost])
                                ++ [CallCreate (set_Password user h)] |})).
  { rewrite (registerUser_hashed register_ann w user rnd later h Preg);
      try discriminate; trivial.
    cbv zeta. now rewrite Ec. }
  pose proof (store_facts.First_after_Create _ _ _ _ Ec) as Hfirst.
  pose proof (store_facts.Create_inv _ _ _ _ Ec) as (_ & _ & _ & Hmail & Hpw).
  cbn [set_Password Email Password user] in Hfirst, Hmail, Hpw.
  rewrite Hrun. cbn [fst snd].
  set (w1 := {| db := db w ++ [row]; entropy := later; calls := _ |}).
  change (db w ++ [row]) with (db w1) in Hfirst.
  assert (Hreg1 : registered "ann@x.com" (db w1)).
  { exists row. split; [apply in_or_app; right; left; reflexivity | exact Hmail]. }
  assert (Hagain : status (fst (registerUser register_ann w1)) <> StatusOK
                   /\ db (snd (registerUser register_ann w1)) = db w1).
  { destruct (registerUser_db register_ann w1)
      as [H | (u & h' & row' & Pu & Ec')]; [exact H |].
    rewrite Preg in Pu; injection Pu as <-.
    apply store_facts.Create_inv in Ec' as (Habs & _).
    apply store_facts.has_Email_absent in Habs. now destruct Habs. }
  destruct Hagain as [Hstatus Hdb].
  assert (Hnobody1 : ~ registered "nobody@x.com" (db w1)).
  { intros [r [Hin E]]. apply in_app_or in Hin as [Hin | [<- | []]].
    - apply Hnobody. now exists r.
    - rewrite Hmail in E. discriminate E. }
  repeat split; trivial.
  - rewrite (loginUser_validated login_ann _ _ Pann) by discriminate.
    cbn [input_Email input_Password]. now rewrite Hdb, Hfirst, Hpw, Hright.
  - rewrite (loginUser_validated login_wrong _ _ Pwrong) by discriminate.
    cbn [input_Email input_Password]. rewrite Hdb, Hfirst, Hpw.
    destruct (bcrypt.CompareHashAndPassword h "wrong");
      [reflexivity | contradiction].
  - rewrite (loginUser_validated login_nobody _ _ Pnobody) by discriminate.
    cbn [input_Email input_Password].
    now rewrite Hdb, (store_facts.First_absent _ _ Hnobody1).
  - unfold response_literals. apply in_or_app. left.
    apply registerUser_literal.
  - unfold response_literals. apply in_or_app. right.
    apply loginUser_literal.
  - revert H. unfold response_literals, register_literals, login_literals.
    simpl. intros H.
    repeat (destruct H as [<- | H]; [reflexivity |]). destruct H.
  - revert H. unfold response_literals, register_literals, login_literals.
    simpl. intros H.
    repeat (destruct H as [<- | H]; [reflexivity |]). destruct H.
  - intros s. revert H.
    unfold response_literals, register_literals, login_literals.
    simpl. intros H.
    repeat (destruct H as [<- | H]; [reflexivity |]). destruct H.
Qed.

Lemma scenario_responses_witness :
  fst (scenario.register scenario.register_ann scenario.start)
    = {| status := 200;
         body := [("message", "User registered successfully")] |}
  /\ status (fst (scenario.register scenario.register_ann
                    (snd (scenario.register scenario.register_ann
                            scenario.start)))) <> 200
  /\ fst (scenario.login scenario.login_ann
            (snd (scenario.register scenario.register_ann
                    (snd (scenario.register scenario.register_ann
                            scenario.start)))))
     = {| status := 200; body := [("message", "Login successful")] |}
  /\ fst (scenario.login scenario.login_ann_wrong
            (snd (scenario.register scenario.register_ann
                    (snd (scenario.register scenario.register_ann
                            scenario.start)))))
     = {| status := 401; body := [("error", "Invalid email or password")] |}
  /\ fst (scenario.login scenario.login_nobody
            (snd (scenario.register scenario.register_ann
                    (snd (scenario.register scenario.register_ann
                            scenario.start)))))
     = {| status := 401; body := [("error", "Invalid email or password")] |}.
Proof.
  destruct (scenario_responses
              (hasher := standin.hasher)
              (decodes_User := wire.decodes_User)
              (decodes_LoginInput := wire.decodes_LoginInput)
              scenario.register_ann scenario.login_ann
              scenario.login_ann_wrong scenario.login_nobody
              scenario.start scenario.salt1 [scenario.salt2]
              (bcrypt.Hash
                 {| bcrypt.hash := standin.core "s3cret" 10 scenario.salt1;
                    bcrypt.salt := scenario.salt1; bcrypt.cost := 10;
                    bcrypt.major := "2"; bcrypt.minor := "a" |}))
    as (H1 & H2 & H3 & H4 & H5 & _).
  - reflexivity.
  - reflexivity.
  - reflexivity.
  - reflexivity.
  - intros [r [[] _]].
  - intros [r [[] _]].
  - reflexivity.
  - reflexivity.
  - vm_compute. reflexivity.
  - vm_compute. discriminate.
  - exact (conj H1 (conj H2 (conj H3 (conj H4 H5)))).
Defined.

(* ================================================================= *)
(** * Further properties of the handlers *)

(** X1. [loginUser] only reads: it leaves the table and the random source
    as they were, and adds to the record of calls without removing any. *)
Theorem loginUser_reads_only
    {Ctx : Type} {hasher : bcrypt.Hasher}
    {decodes_User : Decodes Ctx User}
    {decodes_LoginInput : Decodes Ctx LoginInput}
    (c : Ctx) (w : World) :
  db (snd (loginUser c w)) = db w /\
  entropy (snd (loginUser c w)) = entropy w /\
  exists made, calls (snd (loginUser c w)) = calls w ++ made.
Proof.
  run_handler. destruct (BodyParser c) as [input|e].
  - destruct (_ || _).
    + repeat split. exists []. now rewrite app_nil_r.
    + destruct (gorm.First _) as [u|e].
      * destruct (bcrypt.CompareHashAndPassword _ _); repeat split;
          cbn [snd calls]; rewrite <- app_assoc; eauto.
      * repeat split. cbn [snd calls]. eauto.
  - repeat split. exists []. now rewrite app_nil_r.
Qed.

(** X2. A registration answered 200 stored exactly one new row: it has
    the name and the email of the request, and its password field is the
    hash that [GenerateFromPassword] returned for the password of the
    request under the salt it consumed. *)
Theorem registration_stores_the_hash
    {Ctx : Type} {hasher : bcrypt.Hasher}
    {decodes_User : Decodes Ctx User}
    {decodes_LoginInput : Decodes Ctx LoginInput}
    (c : Ctx) (w : World) :
  status (fst (registerUser c w)) = 200 ->
  exists user rnd later h row,
    BodyParser c = Ok user /\
    entropy w = rnd :: later /\
    bcrypt.GenerateFromPassword rnd (Password user) bcrypt.DefaultCost
      = Ok h /\
    db (snd (registerUser c w)) = db w ++ [row] /\
    entropy (snd (registerUser c w)) = later /\
    Name row = Name user /\ Email row = Email user /\ Password row = h.
Proof.
  run_handler. destruct (BodyParser c) as [user|e]; [| discriminate].
  destruct (_ || _); [discriminate |].
  destruct (entropy w) as [|rnd later]; [discriminate |].
  destruct (bcrypt.GenerateFromPassword rnd _ _) as [h|e] eqn:Eh;
    [| discriminate].
  cbn [db entropy calls].
  destruct (gorm.Create _ _) as [[row t]|e] eqn:Ec; [| discriminate].
  intros _. apply store_facts.Create_inv in Ec as (_ & -> & Hn & Hm & Hp).
  exists user, rnd, later, h, row. cbn [snd db entropy]. repeat split; trivial.
Qed.

Lemma registration_stores_the_hash_witness :
  exists user rnd later h row,
    BodyParser (Decodes := wire.decodes_User) scenario.register_ann
      = Ok user /\
    entropy scenario.start = rnd :: later /\
    bcrypt.GenerateFromPassword (Hasher := standin.hasher)
      rnd (Password user) bcrypt.DefaultCost = Ok h /\
    db (snd (scenario.register scenario.register_ann scenario.start))
      = db scenario.start ++ [row] /\
    entropy (snd (scenario.register scenario.register_ann scenario.start))
      = later /\
    Name row = Name user /\ Email row = Email user /\ Password row = h.
Proof.
  apply (registration_stores_the_hash
           (hasher := standin.hasher)
           (decodes_User := wire.decodes_User)
           (decodes_LoginInput := wire.decodes_LoginInput)
           scenario.register_ann scenario.start).
  vm_compute. reflexivity.
Defined.

(** X3. The status codes of the two routes: [registerUser] answers 200,
    400 or 500, and [loginUser] answers 200, 400 or 401. *)
Theorem handler_statuses
    {Ctx : Type} {hasher : bcrypt.Hasher}
    {decodes_User : Decodes Ctx User}
    {decodes_LoginInput : Decodes Ctx LoginInput}
    (c : Ctx) (w : World) :
  In (status (fst (registerUser c w))) [200; 400; 500] /\
  In (status (fst (loginUser c w))) [200; 400; 401].
Proof.
  split.
  - pose proof (registerUser_literal c w) as H.
    unfold register_literals in H. simpl in H.
    repeat (destruct H as [<- | H]; [simpl; tauto |]). destruct H.
  - pose proof (loginUser_literal c w) as H.
    unfold login_literals in H. simpl in H.
    repeat (destruct H as [<- | H]; [simpl; tauto |]). destruct H.
Qed.

(** X4. Every stored account keeps a non-empty name and a non-empty
    email: if the table has this property, it has it after any sequence
    of requests. *)
Theorem stored_accounts_keep_required_fields
    {Ctx : Type} {hasher : bcrypt.Hasher}
    {decodes_User : Decodes Ctx User}
    {decodes_LoginInput : Decodes Ctx LoginInput}
    (qs : list Request) (w : World) :
  Forall (fun r => Name r <> EmptyString /\ Email r <> EmptyString) (db w) ->
  Forall (fun r => Name r <> EmptyString /\ Email r <> EmptyString)
    (db (serve_all qs w)).
Proof.
  revert w; induction qs as [|q qs IH]; intros w Hw; simpl; trivial.
  apply IH. destruct q as [c|c]; simpl.
  - run_handler. destruct (BodyParser c) as [user|e]; [| exact Hw].
    destruct (_ || _) eqn:Hreq; [exact Hw |].
    destruct (entropy w) as [|rnd later]; [exact Hw |].
    destruct (bcrypt.GenerateFromPassword rnd _ _) as [h|e]; [| exact Hw].
    cbn [db entropy calls].
    destruct (gorm.Create _ _) as [[row t]|e] eqn:Ec; [| exact Hw].
    apply store_facts.Create_inv in Ec as (_ & -> & Hn & Hm & _).
    cbn [snd db]. apply Forall_app. split; [exact Hw |].
    constructor; [| constructor].
    cbn [set_Password Name Email] in Hn, Hm. rewrite Hn, Hm.
    apply orb_false_iff in Hreq as [Hreq _].
    apply orb_false_iff in Hreq as [Hname Hmail].
    split; now apply String.eqb_neq.
  - now rewrite loginUser_db.
Qed.

Lemma stored_accounts_keep_required_fields_witness :
  Forall (fun r => Name r <> EmptyString /\ Email r <> EmptyString)
    (db (scenario.serve_requests
           [PostRegister scenario.register_ann; PostLogin scenario.login_ann]
           scenario.start)).
Proof.
  apply (stored_accounts_keep_required_fields
           (hasher := standin.hasher)
           (decodes_User := wire.decodes_User)
           (decodes_LoginInput := wire.decodes_LoginInput)
           [PostRegister scenario.register_ann; PostLogin scenario.login_ann]
           scenario.start).
  constructor.
Defined.

(* ================================================================= *)
(** * How requests compose *)

Section CompositionFacts.

Context {Ctx : Type}.
Context {hasher : bcrypt.Hasher}.
Context {decodes_User : Decodes Ctx User}.
Context {decodes_LoginInput : Decodes Ctx LoginInput}.

Lemma loginUser_entropy (c : Ctx) (w : World) :
  entropy (snd (loginUser c w)) = entropy w.
Proof.
  run_handler. destruct (BodyParser c) as [input|e]; [| reflexivity].
  destruct (_ || _); [reflexivity |].
  destruct (gorm.First _) as [u|e]; [| reflexivity].
  destruct (bcrypt.CompareHashAndPassword _ _); reflexivity.
Qed.

(** The answer of [loginUser] depends on the world only through the rows
    stored under the email of the request. *)
Lemma loginUser_same_lookup (c : Ctx) (w w' : World) :
  (forall input, BodyParser c = Ok input ->
     gorm.Where_email (input_Email input) (db w)
     = gorm.Where_email (input_Email input) (db w')) ->
  fst (loginUser c w) = fst (loginUser c w').
Proof.
  intros H. run_handler. destruct (BodyParser c) as [input|e]; [| reflexivity].
  destruct (_ || _); [reflexivity |].
  cbv beta. rewrite <- (H input eq_refl).
  destruct (gorm.First _) as [u|e]; [| reflexivity].
  destruct (bcrypt.CompareHashAndPassword _ _); reflexivity.
Qed.

Lemma loginUser_same_db (c : Ctx) (w w' : World) :
  db w = db w' -> fst (loginUser c w) = fst (loginUser c w').
Proof.
  intros H. apply loginUser_same_lookup. intros input _. now rewrite H.
Qed.

(** Neither handler reads the record of calls. *)
Lemma registerUser_same_store (c : Ctx) (w w' : World) :
  db w = db w' -> entropy w = entropy w' ->
  fst (registerUser c w) = fst (registerUser c w') /\
  db (snd (registerUser c w)) = db (snd (registerUser c w')) /\
  entropy (snd (registerUser c w)) = entropy (snd (registerUser c w')).
Proof.
  intros Hdb Hent. run_handler.
  destruct (BodyParser c) as [user|e]; [| auto].
  destruct (_ || _); [auto |].
  cbv beta. rewrite <- Hent.
  destruct (entropy w) as [|rnd later]; [auto |].
  destruct (bcrypt.GenerateFromPassword rnd _ _) as [h|e]; [| auto].
  cbn [db entropy calls]. rewrite <- Hdb.
  destruct (gorm.Create _ _) as [[row t]|e]; auto.
Qed.

Lemma serve_same_store (q : Request) (w w' : World) :
  db w = db w' -> entropy w = entropy w' ->
  fst (serve q w) = fst (serve q w') /\
  db (snd (serve q w)) = db (snd (serve q w')) /\
  entropy (snd (serve q w)) = entropy (snd (serve q w')).
Proof.
  intros Hdb Hent. destruct q as [c|c]; simpl.
  - now apply registerUser_same_store.
  - rewrite !loginUser_db, !loginUser_entropy.
    split; [now apply loginUser_same_db | auto].
Qed.

Lemma history_same_store (qs : list Request) (w w' : World) :
  db w = db w' -> entropy w = entropy w' ->
  answers qs w = answers qs w' /\
  db (serve_all qs w) = db (serve_all qs w') /\
  entropy (serve_all qs w) = entropy (serve_all qs w').
Proof.
  revert w w'; induction qs as [|q qs IH]; intros w w' Hdb Hent; simpl; auto.
  destruct (serve_same_store q w w' Hdb Hent) as (Hr & Hdb' & Hent').
  destruct (IH _ _ Hdb' Hent') as (Ha & Hd & He).
  rewrite Hr, Ha. auto.
Qed.

(** A registration that passed validation was decoded with all three
    fields present. *)
Lemma registerUser_success_fields (c : Ctx) (w : World) (user : User) :
  BodyParser c = Ok user ->
  status (fst (registerUser c w)) = StatusOK ->
  Name user <> EmptyString /\ Email user <> EmptyString
  /\ Password user <> EmptyString.
Proof.
  intros P. run_handler. rewrite P.
  destruct (_ || _) eqn:Hreq; [discriminate |]. intros _.
  apply orb_false_iff in Hreq as [Hreq Hpw].
  apply orb_false_iff in Hreq as [Hname Hmail].
  repeat split; now apply String.eqb_neq.
Qed.

(** What [registerUser] does to the table: nothing, or one row appended
    under the email of the request, and then the answer is 200. *)
Lemma registerUser_table (c : Ctx) (w : World) :
  (status (fst (registerUser c w)) <> StatusOK /\
   db (snd (registerUser c w)) = db w)
  \/ (status (fst (registerUser c w)) = StatusOK /\
      exists user row,
        BodyParser c = Ok user /\
        gorm.has_Email (Email user) (db w) = false /\
        Email row = Email user /\
        db (snd (registerUser c w)) = db w ++ [row]).
Proof.
  run_handler. destruct (BodyParser c) as [user|e];
    [| left; split; [discriminate | reflexivity]].
  destruct (_ || _); [left; split; [discriminate | reflexivity] |].
  destruct (entropy w) as [|rnd later];
    [left; split; [discriminate | reflexivity] |].
  destruct (bcrypt.GenerateFromPassword rnd _ _) as [h|e];
    [| left; split; [discriminate | reflexivity]].
  cbn [db entropy calls].
  destruct (gorm.Create _ _) as [[row t]|e] eqn:E;
    [| left; split; [discriminate | reflexivity]].
  apply store_facts.Create_inv in E as (Habs & -> & _ & Hm & _).
  right. split; [reflexivity |]. exists user, row. auto.
Qed.

Lemma Where_email_other (email : string) (t : gorm.DB) (row : User) :
  Email row <> email ->
  gorm.Where_email email (t ++ [row]) = gorm.Where_email email t.
Proof.
  intros H. unfold gorm.Where_email. rewrite filter_app. simpl.
  rewrite (proj2 (String.eqb_neq _ _) H). apply app_nil_r.
Qed.

End CompositionFacts.

(** X5. A registration that is not answered 200 changes nothing that a
    login can see: the table is as it was, and every login is answered as
    it would have been without that registration. *)
Theorem rejected_registration_changes_no_login
    {Ctx : Type} {hasher : bcrypt.Hasher}
    {decodes_User : Decodes Ctx User}
    {decodes_LoginInput : Decodes Ctx LoginInput}
    (c c' : Ctx) (w : World) :
  status (fst (registerUser c w)) <> 200 ->
  db (snd (registerUser c w)) = db w /\
  fst (loginUser c' (snd (registerUser c w))) = fst (loginUser c' w).
Proof.
  intros Hs.
  destruct (registerUser_table c w) as [[_ Hdb] | [Hok _]];
    [| contradiction].
  split; [exact Hdb | now apply loginUser_same_db].
Qed.

Lemma rejected_registration_changes_no_login_witness :
  db (snd (scenario.register scenario.register_ann scenario.with_ann))
    = db scenario.with_ann /\
  fst (scenario.login scenario.login_ann
         (snd (scenario.register scenario.register_ann scenario.with_ann)))
    = fst (scenario.login scenario.login_ann scenario.with_ann).
Proof.
  apply (rejected_registration_changes_no_login
           (hasher := standin.hasher)
           (decodes_User := wire.decodes_User)
           (decodes_LoginInput := wire.decodes_LoginInput)
           scenario.register_ann scenario.login_ann scenario.with_ann).
  vm_compute. discriminate.
Defined.

(** X6. A login leaves no trace for later requests: after a login, any
    sequence of requests is answered exactly as without it, and leaves the
    same table and the same random source. *)
Theorem logins_leave_no_trace
    {Ctx : Type} {hasher : bcrypt.Hasher}
    {decodes_User : Decodes Ctx User}
    {decodes_LoginInput : Decodes Ctx LoginInput}
    (c : Ctx) (qs : list Request) (w : World) :
  answers qs (snd (loginUser c w)) = answers qs w /\
  db (serve_all qs (snd (loginUser c w))) = db (serve_all qs w) /\
  entropy (serve_all qs (snd (loginUser c w))) = entropy (serve_all qs w).
Proof.
  apply history_same_store.
  - apply loginUser_db.
  - apply loginUser_entropy.
Qed.

(** X7. A login is answered 200 only if the request was decoded with a
    non-empty email and password and the table holds an account with that
    email whose stored hash verifies the password. *)
Theorem login_success_requires_verification
    {Ctx : Type} {hasher : bcrypt.Hasher}
    {decodes_User : Decodes Ctx User}
    {decodes_LoginInput : Decodes Ctx LoginInput}
    (c : Ctx) (w : World) :
  status (fst (loginUser c w)) = 200 ->
  exists input u,
    BodyParser c = Ok input /\
    input_Email input <> EmptyString /\
    input_Password input <> EmptyString /\
    In u (db w) /\ Email u = input_Email input /\
    bcrypt.CompareHashAndPassword (Password u) (input_Password input) = None.
Proof.
  run_handler. destruct (BodyParser c) as [input|e]; [| discriminate].
  destruct (_ || _) eqn:Hreq; [discriminate |].
  cbv beta. destruct (gorm.First _) as [u|e] eqn:Hfirst; [| discriminate].
  destruct (bcrypt.CompareHashAndPassword _ _) eqn:Hcmp; [discriminate |].
  intros _. apply store_facts.First_found in Hfirst as [Hin Hmail].
  apply orb_false_iff in Hreq as [He Hp].
  exists input, u. repeat split; trivial; now apply String.eqb_neq.
Qed.

Lemma login_success_requires_verification_witness :
  exists input u,
    BodyParser (Decodes := wire.decodes_LoginInput) scenario.login_ann
      = Ok input /\
    input_Email input <> EmptyString /\
    input_Password input <> EmptyString /\
    In u (db scenario.with_ann) /\ Email u = input_Email input /\
    bcrypt.CompareHashAndPassword (Hasher := standin.hasher)
      (Password u) (input_Password input) = None.
Proof.
  apply (login_success_requires_verification
           (hasher := standin.hasher)
           (decodes_User := wire.decodes_User)
           (decodes_LoginInput := wire.decodes_LoginInput)
           scenario.login_ann scenario.with_ann).
  vm_compute. reflexivity.
Defined.

(** X8. A registration, whatever its answer, does not change how a login
    under another email is answered. *)
Theorem registration_keeps_other_logins
    {Ctx : Type} {hasher : bcrypt.Hasher}
    {decodes_User : Decodes Ctx User}
    {decodes_LoginInput : Decodes Ctx LoginInput}
    (c c' : Ctx) (w : World) (user : User) (input : LoginInput) :
  BodyParser c = Ok user ->
  BodyParser c' = Ok input ->
  input_Email input <> Email user ->
  fst (loginUser c' (snd (registerUser c w))) = fst (loginUser c' w).
Proof.
  intros P P' Hne.
  destruct (registerUser_table c w)
    as [[_ Hdb] | [_ (u & row & Pu & _ & Hm & Hdb)]].
  - now apply loginUser_same_db.
  - rewrite P in Pu; injection Pu as <-.
    apply loginUser_same_lookup. intros input' Pi.
    rewrite P' in Pi; injection Pi as <-.
    rewrite Hdb. apply Where_email_other. congruence.
Qed.

Lemma registration_keeps_other_logins_witness :
  fst (scenario.login scenario.login_ann
         (snd (scenario.register cases.register_bob scenario.with_ann)))
    = fst (scenario.login scenario.login_ann scenario.with_ann).
Proof.
  apply (registration_keeps_other_logins
           (hasher := standin.hasher)
           (decodes_User := wire.decodes_User)
           (decodes_LoginInput := wire.decodes_LoginInput)
           cases.register_bob scenario.login_ann scenario.with_ann
           {| ID := 0; Name := "Bob"; Email := "bob@x.com";
              Password := "hunter2" |}
           {| input_Email := "ann@x.com"; input_Password := "s3cret" |}).
  - reflexivity.
  - reflexivity.
  - discriminate.
Defined.



(** X11. When the hash fails on a well-formed registration, because the
    random source delivers nothing or because the hashing function
    returns an error, the answer is 500 with [Failed to hash password],
    the table is left as it was and the store is not called. *)
Theorem hash_failure_is_internal_error
    {Ctx : Type} {hasher : bcrypt.Hasher}
    {decodes_User : Decodes Ctx User}
    {decodes_LoginInput : Decodes Ctx LoginInput}
    (c : Ctx) (w : World) (user : User) :
  BodyParser c = Ok user ->
  Name user <> EmptyString -> Email user <> EmptyString ->
  Password user <> EmptyString ->
  (entropy w = []
   \/ exists rnd later e,
        entropy w = rnd :: later /\
        bcrypt.GenerateFromPassword rnd (Password user) bcrypt.DefaultCost
          = Err e) ->
  fst (registerUser c w)
    = {| status := 500; body := [("error", "Failed to hash password")] |} /\
  db (snd (registerUser c w)) = db w /\
  calls (snd (registerUser c w))
    = calls w ++ [CallGenerateFromPassword (Password user)
                    bcrypt.DefaultCost].
Proof.
  intros P Hn He Hp Hfail. run_handler.
  rewrite P, (present_User user Hn He Hp). cbv beta.
  destruct Hfail as [-> | (rnd & later & e & -> & ->)]; repeat split.
Qed.

Lemma hash_failure_is_internal_error_witness :
  fst (scenario.register cases.register_bob cases.exhausted)
    = {| status := 500; body := [("error", "Failed to hash password")] |} /\
  db (snd (scenario.register cases.register_bob cases.exhausted))
    = db cases.exhausted /\
  calls (snd (scenario.register cases.register_bob cases.exhausted))
    = calls cases.exhausted
      ++ [CallGenerateFromPassword "hunter2" bcrypt.DefaultCost].
Proof.
  apply (hash_failure_is_internal_error
           (hasher := standin.hasher)
           (decodes_User := wire.decodes_User)
           (decodes_LoginInput := wire.decodes_LoginInput)
           cases.register_bob cases.exhausted
           {| ID := 0; Name := "Bob"; Email := "bob@x.com";
              Password := "hunter2" |}).
  - reflexivity.
  - discriminate.
  - discriminate.
  - discriminate.
  - left. reflexivity.
Defined.

(** X12. A registration answered 200 found no account under its email
    and leaves exactly one; the number of accounts under every other
    email is as before. *)
Theorem successful_registration_makes_one_account
    {Ctx : Type} {hasher : bcrypt.Hasher}
    {decodes_User : Decodes Ctx User}
    {decodes_LoginInput : Decodes Ctx LoginInput}
    (c : Ctx) (w : World) (user : User) :
  BodyParser c = Ok user ->
  status (fst (registerUser c w)) = 200 ->
  accounts_of (Email user) (db w) = 0%nat /\
  accounts_of (Email user) (db (snd (registerUser c w))) = 1%nat /\
  forall email, email <> Email user ->
    accounts_of email (db (snd (registerUser c w)))
    = accounts_of email (db w).
Proof.
  intros P Hs.
  destruct (registerUser_table c w)
    as [[Hne _] | [_ (u & row & Pu & Habs & Hm & Hdb)]]; [contradiction |].
  rewrite P in Pu; injection Pu as <-.
  unfold accounts_of. rewrite Hdb.
  pose proof (store_facts.Where_email_absent _ _ Habs) as Hnone.
  repeat split.
  - now rewrite Hnone.
  - unfold gorm.Where_email in *. rewrite filter_app, Hnone. simpl.
    now rewrite Hm, String.eqb_refl.
  - intros email Hne. rewrite Where_email_other; congruence.
Qed.

Lemma successful_registration_makes_one_account_witness :
  accounts_of "bob@x.com" (db scenario.with_ann) = 0%nat /\
  accounts_of "bob@x.com"
    (db (snd (scenario.register cases.register_bob scenario.with_ann)))
    = 1%nat /\
  forall email, email <> "bob@x.com" ->
    accounts_of email
      (db (snd (scenario.register cases.register_bob scenario.with_ann)))
    = accounts_of email (db scenario.with_ann).
Proof.
  apply (successful_registration_makes_one_account
           (hasher := standin.hasher)
           (decodes_User := wire.decodes_User)
           (decodes_LoginInput := wire.decodes_LoginInput)
           cases.register_bob scenario.with_ann
           {| ID := 0; Name := "Bob"; Email := "bob@x.com";
              Password := "hunter2" |}).
  - reflexivity.
  - vm_compute. reflexivity.
Defined.

(** X13. After a registration answered 200, a login under the same email
    with any non-empty password is decided by the verification of that
    password against the hash the registration obtained: 200 with [Login
    successful] when it verifies, 401 with [Invalid email or password]
    when it does not. *)
Theorem login_after_registration
    {Ctx : Type} {hasher : bcrypt.Hasher}
    {decodes_User : Decodes Ctx User}
    {decodes_LoginInput : Decodes Ctx LoginInput}
    (c1 c2 : Ctx) (w : World) (user : User) (attempt : string) :
  BodyParser c1 = Ok user ->
  status (fst (registerUser c1 w)) = 200 ->
  BodyParser c2
    = Ok {| input_Email := Email user; input_Password := attempt |} ->
  attempt <> EmptyString ->
  exists rnd later h,
    entropy w = rnd :: later /\
    bcrypt.GenerateFromPassword rnd (Password user) bcrypt.DefaultCost
      = Ok h /\
    fst (loginUser c2 (snd (registerUser c1 w)))
    = match bcrypt.CompareHashAndPassword h attempt with
      | None =>
          {| status := 200; body := [("message", "Login successful")] |}
      | Some _ =>
          {| status := 401;
             body := [("error", "Invalid email or password")] |}
      end.
Proof.
  intros P1 Hs P2 Hatt.
  destruct (registerUser_success_fields c1 w user P1 Hs) as (_ & Hmail & _).
  destruct (registerUser_success_inv _ _ Hs)
    as (u & rnd & later & h & row & t & Pu & Hent & Eh & Ec & Edb).
  rewrite P1 in Pu; injection Pu as <-.
  exists rnd, later, h. repeat split; trivial.
  pose proof (store_facts.First_after_Create _ _ _ _ Ec) as Hfirst.
  apply store_facts.Create_inv in Ec as (_ & _ & _ & _ & Hpw).
  cbn [set_Password Email Password] in Hfirst, Hpw.
  rewrite (loginUser_validated c2 _ _ P2 Hmail Hatt).
  cbn [input_Email input_Password]. rewrite Edb, Hfirst, Hpw.
  destruct (bcrypt.CompareHashAndPassword h attempt); reflexivity.
Qed.

Lemma login_after_registration_witness :
  exists rnd later h,
    entropy scenario.start = rnd :: later /\
    bcrypt.GenerateFromPassword (Hasher := standin.hasher)
      rnd "s3cret" bcrypt.DefaultCost = Ok h /\
    fst (scenario.login scenario.login_ann_wrong
           (snd (scenario.register scenario.register_ann scenario.start)))
    = match bcrypt.CompareHashAndPassword (Hasher := standin.hasher)
              h "wrong" with
      | None =>
          {| status := 200; body := [("message", "Login successful")] |}
      | Some _ =>
          {| status := 401;
             body := [("error", "Invalid email or password")] |}
      end.
Proof.
  apply (login_after_registration
           (hasher := standin.hasher)
           (decodes_User := wire.decodes_User)
           (decodes_LoginInput := wire.decodes_LoginInput)
           scenario.register_ann scenario.login_ann_wrong scenario.start
           {| ID := 0; Name := "Ann"; Email := "ann@x.com";
              Password := "s3cret" |}
           "wrong").
  - reflexivity.
  - vm_compute. reflexivity.
  - reflexivity.
  - discriminate.
Defined.

(* ================================================================= *)
(** * Start-up *)

(** X14. [initDatabase] opens exactly one data source, never the empty
    one: the value of [DATABASE_DSN], or [users.db] when the variable is
    unset or empty. It returns only when that source was opened and
    migrated, with the connection in the global [db] and nothing logged;
    otherwise it ends fatally, with [Failed to connect to database] when
    the opening failed, and with [Failed to migrate database schema] when
    the migration of the opened source failed. *)
Theorem initDatabase_outcome
    {Conn : Type} {host : startup.Host Conn} (p : startup.Process) :
  exists dsn,
    dsn <> EmptyString /\
    (dsn = os.Getenv "DATABASE_DSN" (startup.environ p)
     \/ (os.Getenv "DATABASE_DSN" (startup.environ p) = EmptyString
         /\ dsn = "users.db")) /\
    match startup.initDatabase p with
    | startup.Returned q =>
        exists conn,
          startup.gorm_Open dsn = Ok conn /\
          startup.AutoMigrate conn = None /\
          startup.db_handle q = Some conn /\
          startup.environ q = startup.environ p /\
          startup.printed q = startup.printed p
    | startup.Fatal out =>
        (exists err,
           startup.gorm_Open dsn = Err err /\
           out = startup.printed p
                 ++ [("Failed to connect to database: " ++ err)%string])
        \/ (exists conn err,
              startup.gorm_Open dsn = Ok conn /\
              startup.AutoMigrate conn = Some err /\
              out = startup.printed p
                    ++ [("Failed to migrate database schema: "
                         ++ err)%string])
    end.
Proof.
  unfold startup.initDatabase.
  destruct (String.eqb_spec (os.Getenv "DATABASE_DSN" (startup.environ p))
              EmptyString) as [Hempty | Hset].
  - exists "users.db". split; [discriminate |]. split; [now right |].
    destruct (startup.gorm_Open "users.db") as [conn|err] eqn:Hopen.
    + destruct (startup.AutoMigrate conn) as [err|] eqn:Hmig.
      * right. eauto.
      * exists conn. auto.
    + left. eauto.
  - exists (os.Getenv "DATABASE_DSN" (startup.environ p)).
    split; [exact Hset |]. split; [now left |].
    destruct (startup.gorm_Open _) as [conn|err] eqn:Hopen.
    + destruct (startup.AutoMigrate conn) as [err|] eqn:Hmig.
      * right. eauto.
      * exists conn. auto.
    + left. eauto.
Qed.

(** X15. A [.env] file that cannot be loaded does not stop the start-up:
    [init] logs [No .env file found] and ends as [initDatabase] ends on
    the environment as it was. It returns when [initDatabase] returns,
    with the same connection, and is fatal when [initDatabase] is, with
    the same last line. *)
Theorem init_without_dotenv
    {Conn : Type} {host : startup.Host Conn} (p : startup.Process)
    (e : string) :
  startup.godotenv_Load (startup.environ p) = Err e ->
  match startup.init p, startup.initDatabase p with
  | startup.Returned q, startup.Returned q' =>
      startup.environ q = startup.environ p /\
      startup.db_handle q = startup.db_handle q' /\
      startup.printed q = startup.printed p ++ ["No .env file found"]
  | startup.Fatal out, startup.Fatal out' =>
      exists line,
        out' = startup.printed p ++ [line] /\
        out = startup.printed p ++ ["No .env file found"; line]
  | _, _ => False
  end.
Proof.
  intros Hload. unfold startup.init, startup.initDatabase.
  rewrite Hload. cbn [startup.environ startup.printed startup.db_handle].
  destruct (startup.gorm_Open _) as [conn|err].
  - destruct (startup.AutoMigrate conn) as [err|].
    + eexists. split; [reflexivity |]. now rewrite <- app_assoc.
    + repeat split.
  - eexists. split; [reflexivity |]. now rewrite <- app_assoc.
Qed.

Lemma init_without_dotenv_witness :
  match machine.init machine.bare,
        startup.initDatabase (host := machine.host) machine.bare with
  | startup.Returned q, startup.Returned q' =>
      startup.environ q = startup.environ machine.bare /\
      startup.db_handle q = startup.db_handle q' /\
      startup.printed q
        = startup.printed machine.bare ++ ["No .env file found"]
  | startup.Fatal out, startup.Fatal out' =>
      exists line,
        out' = startup.printed machine.bare ++ [line] /\
        out = startup.printed machine.bare ++ ["No .env file found"; line]
  | _, _ => False
  end.
Proof.
  apply (init_without_dotenv (host := machine.host) machine.bare
           "open .env: no such file or directory").
  reflexivity.
Defined.

(** X16. [main] listens on a colon followed by a port that is never
    empty: the value of [PORT], or 3000 when the variable is unset or
    empty. *)
Theorem main_listen_address
    {Conn : Type} (p : startup.Process (Conn := Conn)) :
  exists port,
    startup.address (startup.main p) = (":" ++ port)%string /\
    port <> EmptyString /\
    (port = os.Getenv "PORT" (startup.environ p)
     \/ (os.Getenv "PORT" (startup.environ p) = EmptyString
         /\ port = "3000")).
Proof.
  unfold startup.main. cbn [startup.address].
  destruct (String.eqb_spec (os.Getenv "PORT" (startup.environ p))
              EmptyString) as [Hempty | Hset].
  - exists "3000". split; [reflexivity |]. split; [discriminate | now right].
  - exists (os.Getenv "PORT" (startup.environ p)).
    split; [reflexivity |]. split; [exact Hset | now left].
Qed.

(* ================================================================= *)
(** * The life of an account *)

Section AccountFacts.

Context {Ctx : Type}.
Context {hasher : bcrypt.Hasher}.
Context {decodes_User : Decodes Ctx User}.
Context {decodes_LoginInput : Decodes Ctx LoginInput}.

(** One request leaves the rows of a registered email as they are. *)
Lemma serve_keeps_registered (q : Request) (w : World) (email : string) :
  registered email (db w) ->
  gorm.Where_email email (db (snd (serve q w)))
    = gorm.Where_email email (db w)
  /\ registered email (db (snd (serve q w))).
Proof.
  intros Hreg. destruct q as [c|c]; simpl.
  - destruct (registerUser_table c w)
      as [[_ Hdb] | [_ (u & row & _ & Habs & Hm & Hdb)]]; rewrite Hdb.
    + auto.
    + split.
      * apply Where_email_other. intros E.
        apply store_facts.has_Email_absent in Habs. apply Habs.
        now rewrite <- Hm, E.
      * destruct Hreg as [r [Hin Hr]]. exists r.
        split; [apply in_or_app; now left | exact Hr].
  - rewrite loginUser_db. auto.
Qed.

Lemma history_keeps_registered (qs : list Request) (w : World)
      (email : string) :
  registered email (db w) ->
  gorm.Where_email email (db (serve_all qs w))
    = gorm.Where_email email (db w).
Proof.
  revert w; induction qs as [|q qs IH]; intros w Hreg; simpl; trivial.
  destruct (serve_keeps_registered q w email Hreg) as [Hrows Hreg'].
  now rewrite (IH _ Hreg'), Hrows.
Qed.

End AccountFacts.

(** X17. No request changes or removes a stored account: after any
    sequence of requests the table is the old table followed by the rows
    added since, at most one for each request. *)
Theorem store_only_grows
    {Ctx : Type} {hasher : bcrypt.Hasher}
    {decodes_User : Decodes Ctx User}
    {decodes_LoginInput : Decodes Ctx LoginInput}
    (qs : list Request) (w : World) :
  exists added,
    db (serve_all qs w) = db w ++ added /\
    (List.length added <= List.length qs)%nat.
Proof.
  revert w; induction qs as [|q qs IH]; intros w; simpl.
  - exists []. split; [now rewrite app_nil_r | apply Nat.le_refl].
  - destruct (IH (snd (serve q w))) as (added & -> & Hlen).
    destruct q as [c|c]; simpl.
    + destruct (registerUser_table c w)
        as [[_ Hdb] | [_ (u & row & _ & _ & _ & Hdb)]]; rewrite Hdb.
      * exists added. split; [reflexivity | now apply Nat.le_le_succ_r].
      * exists (row :: added). rewrite <- app_assoc. simpl.
        split; [reflexivity | now apply le_n_S].
    + rewrite loginUser_db. exists added.
      split; [reflexivity | now apply Nat.le_le_succ_r].
Qed.

(** X18. Once an email is registered, the answer to a login under that
    email is settled: whatever requests are served afterwards, among them
    registrations under the same email, the same login request gets the
    same answer. *)
Theorem registered_login_is_stable
    {Ctx : Type} {hasher : bcrypt.Hasher}
    {decodes_User : Decodes Ctx User}
    {decodes_LoginInput : Decodes Ctx LoginInput}
    (c : Ctx) (qs : list Request) (w : World) (input : LoginInput) :
  BodyParser c = Ok input ->
  registered (input_Email input) (db w) ->
  fst (loginUser c (serve_all qs w)) = fst (loginUser c w).
Proof.
  intros P Hreg. apply loginUser_same_lookup. intros input' P'.
  rewrite P in P'; injection P' as <-.
  now apply history_keeps_registered.
Qed.

Lemma registered_login_is_stable_witness :
  fst (scenario.login scenario.login_ann
         (scenario.serve_requests cases.history scenario.with_ann))
    = fst (scenario.login scenario.login_ann scenario.with_ann).
Proof.
  apply (registered_login_is_stable
           (hasher := standin.hasher)
           (decodes_User := wire.decodes_User)
           (decodes_LoginInput := wire.decodes_LoginInput)
           scenario.login_ann cases.history scenario.with_ann
           {| input_Email := "ann@x.com"; input_Password := "s3cret" |}).
  - reflexivity.
  - eexists. split; [left; reflexivity | reflexivity].
Defined.

Lemma logins_leave_no_trace_witness :
  cases.answers cases.history
    (snd (scenario.login scenario.login_nobody scenario.with_ann))
    = cases.answers cases.history scenario.with_ann /\
  db (scenario.serve_requests cases.history
        (snd (scenario.login scenario.login_nobody scenario.with_ann)))
    = db (scenario.serve_requests cases.history scenario.with_ann) /\
  entropy (scenario.serve_requests cases.history
             (snd (scenario.login scenario.login_nobody scenario.with_ann)))
    = entropy (scenario.serve_requests cases.history scenario.with_ann).
Proof.
  apply (logins_leave_no_trace
           (hasher := standin.hasher)
           (decodes_User := wire.decodes_User)
           (decodes_LoginInput := wire.decodes_LoginInput)
           scenario.login_nobody cases.history scenario.with_ann).
Defined.
